(** * PPmaker: the two request handlers of [python/main.py]

    A shallow embedding of [extract_powerpoint] and [update_powerpoint]
    together with the part of Python, Flask and python-pptx they touch.

    - Request bodies are dynamically typed: the value of [request.json] is
      modelled by [json], and every Python operation the handlers apply to
      it ([x[k]], [x.get(k, d)], [k in x], [len], iteration, [str.join],
      [str.strip], truthiness) is defined on all of [json], raising the
      exception Python raises on the wrong type.
    - Exceptions are the error of the [result] monad.  A handler's
      [try ... except Exception] is [try_except]; what is raised outside of
      it leaves the handler as [Uncaught].
    - A presentation is the slide-id list and the relationships of the
      presentation part, plus the layout gallery. *)

From Stdlib Require Import Ascii String ZArith.
From stdpp Require Import base option list strings gmap pretty.

Open Scope string_scope.
Open Scope list_scope.
Open Scope nat_scope.

(** ** Exceptions and the error monad *)

Record exn := Exn { exn_class : string; exn_str : string }.

Global Instance exn_eq_dec : EqDecision exn.
Proof. solve_decision. Defined.

Inductive result (A : Type) :=
| Ok (a : A)
| Raise (e : exn).
Arguments Ok {A} a.
Arguments Raise {A} e.

Global Instance result_ret : MRet result := λ A a, Ok a.
Global Instance result_bind : MBind result := λ A B f m,
  match m with Ok a => f a | Raise e => Raise e end.
Global Instance result_fmap : FMap result := λ A B f m,
  match m with Ok a => Ok (f a) | Raise e => Raise e end.

(** [for x in xs: acc = body(x, acc)], stopping at the first exception. *)
Fixpoint for_each {A S} (body : A → S → result S) (xs : list A) (s : S)
  : result S :=
  match xs with
  | [] => Ok s
  | x :: xs' => s' ← body x s; for_each body xs' s'
  end.

(** ** Strings *)

Definition LF : string := String "010"%char EmptyString.
Definition CR : string := String "013"%char EmptyString.
Definition quote (s : string) : string := "'" +:+ s +:+ "'".

(** [str.join]: [sep.join(parts)]. *)
Fixpoint str_join (sep : string) (parts : list string) : string :=
  match parts with
  | [] => EmptyString
  | [p] => p
  | p :: rest => p +:+ sep +:+ str_join sep rest
  end.

(** Characters are code points below 256; these are the ones of that range
    for which [str.isspace] holds, the characters [str.strip()] removes. *)
Definition py_isspace (c : ascii) : bool :=
  let n := nat_of_ascii c in
  (((9 <=? n) && (n <=? 13)) || ((28 <=? n) && (n <=? 32))
   || (n =? 133) || (n =? 160))%nat.

Fixpoint lstrip (s : string) : string :=
  match s with
  | EmptyString => EmptyString
  | String c r => if py_isspace c then lstrip r else s
  end.
Definition rstrip (s : string) : string := String.rev (lstrip (String.rev s)).
Definition strip (s : string) : string := rstrip (lstrip s).

(** [needle in hay] on two strings. *)
Fixpoint str_contains (needle hay : string) : bool :=
  String.prefix needle hay ||
  match hay with
  | EmptyString => false
  | String _ r => str_contains needle r
  end.

Fixpoint chars (s : string) : list string :=
  match s with
  | EmptyString => []
  | String c r => String c EmptyString :: chars r
  end.

(** ** JSON values as Python objects

    [request.json] yields [None], [bool], [int], [str], [list] and [dict]
    objects.  Non-integral numbers are left out: no handler computes with
    numbers.  A dict is the list of its items in insertion order; where a
    key is listed twice, the first item is the dict's. *)

#[warnings="-register-all"]
Inductive json :=
| JNull
| JBool (b : bool)
| JNum (n : Z)
| JStr (s : string)
| JArr (items : list json)
| JObj (fields : list (string * json)).

Definition type_name (v : json) : string :=
  match v with
  | JNull => "NoneType" | JBool _ => "bool" | JNum _ => "int"
  | JStr _ => "str" | JArr _ => "list" | JObj _ => "dict"
  end.

(** [repr(s)] for a string without backslashes or control characters that
    does not hold both kinds of quote: double quotes when [s] has a single
    quote, single quotes otherwise. *)
Definition repr (s : string) : string :=
  let dq := String "034"%char EmptyString in
  if str_contains "'" s && negb (str_contains dq s)
  then dq +:+ s +:+ dq
  else quote s.

(** [str] of a [KeyError] is the [repr] of its argument. *)
Definition KeyError (k : string) : exn := Exn "KeyError" (repr k).
Definition TypeError (msg : string) : exn := Exn "TypeError" msg.
Definition AttributeError (v : string) (attr : string) : exn :=
  Exn "AttributeError" (quote v +:+ " object has no attribute " +:+ quote attr).
Definition IndexError (msg : string) : exn := Exn "IndexError" msg.
Definition ValueError (msg : string) : exn := Exn "ValueError" msg.

(** The entry of a dict under key [k]. *)
Fixpoint dict_get (fields : list (string * json)) (k : string) : option json :=
  match fields with
  | [] => None
  | (k', v) :: rest => if String.eqb k' k then Some v else dict_get rest k
  end.

(** [bool(v)]. *)
Definition truthy (v : json) : bool :=
  match v with
  | JNull => false
  | JBool b => b
  | JNum n => negb (n =? 0)%Z
  | JStr s => negb (String.eqb s EmptyString)
  | JArr l => negb (bool_decide (length l = 0))
  | JObj m => negb (bool_decide (length m = 0))
  end.

(** [v == s] for a [str] literal [s]. *)
Definition eq_str (v : json) (s : string) : bool :=
  match v with JStr t => String.eqb t s | _ => false end.

(** [v[k]] for a [str] key [k]. *)
Definition py_getitem (v : json) (k : string) : result json :=
  match v with
  | JObj m => match dict_get m k with Some x => Ok x | None => Raise (KeyError k) end
  | JArr _ => Raise (TypeError "list indices must be integers or slices, not str")
  | JStr _ => Raise (TypeError "string indices must be integers, not 'str'")
  | _ => Raise (TypeError (quote (type_name v) +:+ " object is not subscriptable"))
  end.

(** [v.get(k, default)]: only a [dict] has the method. *)
Definition py_get (v : json) (k : string) (dflt : json) : result json :=
  match v with
  | JObj m => Ok (default dflt (dict_get m k))
  | _ => Raise (AttributeError (type_name v) "get")
  end.

(** [k in v] for a [str] key [k]: key membership on a dict, element
    membership on a list, substring test on a string. *)
Definition py_contains (k : string) (v : json) : result bool :=
  match v with
  | JObj m => Ok (bool_decide (is_Some (dict_get m k)))
  | JArr l => Ok (existsb (λ x, eq_str x k) l)
  | JStr s => Ok (str_contains k s)
  | _ => Raise (TypeError ("argument of type " +:+ quote (type_name v) +:+ " is not iterable"))
  end.

(** [len(v)]. *)
Definition py_len (v : json) : result nat :=
  match v with
  | JStr s => Ok (String.length s)
  | JArr l => Ok (length l)
  | JObj m => Ok (length m)
  | _ => Raise (TypeError ("object of type " +:+ quote (type_name v) +:+ " has no len()"))
  end.

(** The items [for x in v] runs over: the elements of a list, the keys of
    a dict, the characters of a string. *)
Definition py_iter (v : json) : result (list json) :=
  match v with
  | JArr l => Ok l
  | JObj m => Ok (map (λ kv, JStr kv.1) m)
  | JStr s => Ok (map JStr (chars s))
  | _ => Raise (TypeError (quote (type_name v) +:+ " object is not iterable"))
  end.

(** [sep.join(v)]: every item has to be a [str]. *)
Fixpoint str_items (i : nat) (l : list json) : result (list string) :=
  match l with
  | [] => Ok []
  | JStr s :: rest => ss ← str_items (S i) rest; Ok (s :: ss)
  | x :: _ =>
      Raise (TypeError ("sequence item " +:+ pretty i +:+ ": expected str instance, "
                        +:+ type_name x +:+ " found"))
  end.

Definition py_join (sep : string) (v : json) : result string :=
  match v with
  | JNull | JBool _ | JNum _ => Raise (TypeError "can only join an iterable")
  | _ => items ← py_iter v; ss ← str_items 0 items; Ok (str_join sep ss)
  end.

(** [v.strip()]: only a [str] has the method. *)
Definition py_strip (v : json) : result string :=
  match v with
  | JStr s => Ok (strip s)
  | _ => Raise (AttributeError (type_name v) "strip")
  end.

(** ** The python-pptx object model

    Only what the handlers reach.  A slide is its shape tree; a shape is a
    placeholder when it carries an [idx], and has a text frame or not
    (pictures, graphic frames, groups and connectors have none).  The text
    of a text frame is kept as the string [shape.text] reads. *)

Inductive PP_PLACEHOLDER :=
| TITLE | CENTER_TITLE | SUBTITLE | BODY | OBJECT | PICTURE
| DATE | FOOTER | SLIDE_NUMBER.

Global Instance PP_PLACEHOLDER_eq_dec : EqDecision PP_PLACEHOLDER.
Proof. solve_decision. Defined.

Record Shape := mkShape {
  ph_idx : option nat;
  text_frame : option string }.

Record Slide := mkSlide { spTree : list Shape }.

Record LayoutPlaceholder := mkLayoutPlaceholder {
  lph_idx : nat;
  lph_type : PP_PLACEHOLDER }.

Record SlideLayout := mkSlideLayout {
  layout_placeholders : list LayoutPlaceholder }.

(** The parts the presentation part is related to. *)
Inductive Part :=
| SlidePart (slide : Slide)
| OtherPart (partname : string).

(** [sldIdLst]: the [r:id] of each [<p:sldId>], in slide order.
    [rels]: the relationships of the presentation part, by rId.
    [slide_layouts]: the layout gallery [prs.slide_layouts]. *)
Record Presentation := mkPresentation {
  sldIdLst : list string;
  rels : gmap string Part;
  slide_layouts : list SlideLayout }.

Global Instance Shape_eq_dec : EqDecision Shape.
Proof. solve_decision. Defined.
Global Instance Slide_eq_dec : EqDecision Slide.
Proof. solve_decision. Defined.
Global Instance LayoutPlaceholder_eq_dec : EqDecision LayoutPlaceholder.
Proof. solve_decision. Defined.
Global Instance SlideLayout_eq_dec : EqDecision SlideLayout.
Proof. solve_decision. Defined.
Global Instance Part_eq_dec : EqDecision Part.
Proof. solve_decision. Defined.
Global Instance Presentation_eq_dec : EqDecision Presentation.
Proof. solve_decision. Defined.

(** *** Shapes *)

Definition has_text_frame (sh : Shape) : bool :=
  bool_decide (is_Some (text_frame sh)).

(** [shape.text] *)
Definition shape_text (sh : Shape) : result string :=
  match text_frame sh with
  | Some t => Ok t
  | None => Raise (AttributeError "GraphicFrame" "text")
  end.

Definition is_placeholder (sh : Shape) : bool :=
  bool_decide (is_Some (ph_idx sh)).

(** The first placeholder element with the given [idx], with its position
    in the shape tree. *)
Definition find_ph (idx : nat) (slide : Slide) : option (nat * Shape) :=
  list_find (λ sh, ph_idx sh = Some idx) (spTree slide).

(** The element behind [slide.shapes.title]: the placeholder with idx 0. *)
Definition title_elm (slide : Slide) : option (nat * Shape) := find_ph 0 slide.

(** [len(slide.placeholders)] *)
Definition placeholders_len (slide : Slide) : nat :=
  length (filter (λ sh, is_placeholder sh = true) (spTree slide)).

(** [slide.placeholders[idx]]: a lookup by the placeholder's [idx], not by
    position; the position of the element found is returned. *)
Definition placeholders_getitem (slide : Slide) (idx : nat) : result nat :=
  match find_ph idx slide with
  | Some (pos, _) => Ok pos
  | None =>
      Raise (KeyError ("no placeholder on this slide with idx == " +:+ pretty idx))
  end.

(** *** Assigning text

    [shape.text = s] cuts [s] at its line feeds into paragraphs and every
    paragraph at its vertical tabs into runs with line breaks in between,
    and writes the text of a run escaped: a control character, one with a
    code below 32, other than tab becomes [_xHHHH_], its code in four
    hexadecimal digits.  [shape.text] joins the paragraphs with line feeds
    and reads a line break as a vertical tab; it does not undo the escapes.
    What is read after [shape.text = s] is therefore [s] with every control
    character other than tab, line feed and vertical tab escaped. *)

(** The characters written escaped. *)
Definition escaped (c : ascii) : bool :=
  let n := nat_of_ascii c in
  (n <? 32) && negb ((n =? 9) || (n =? 10) || (n =? 11)).

Definition hex_digit (n : nat) : ascii :=
  default "0"%char (String.get n "0123456789ABCDEF").

(** ["_x%04X_" % ord(c)], for a code point below 256. *)
Definition escape_char (c : ascii) : string :=
  let n := nat_of_ascii c in
  "_x00" +:+ String (hex_digit (n / 16)) (String (hex_digit (n mod 16)) "_").

Fixpoint escape (s : string) : string :=
  match s with
  | EmptyString => EmptyString
  | String c r =>
      if escaped c then escape_char c +:+ escape r else String c (escape r)
  end.

(** The slide after [shape.text = s] on the element at position [pos]:
    the text its text frame reads is [escape s]. *)
Definition write_text (pos : nat) (s : string) (slide : Slide) : Slide :=
  mkSlide (alter (λ sh, mkShape (ph_idx sh) (Some (escape s))) pos (spTree slide)).

(** [shape.text = v] on the element at position [pos]: only a [str] can be
    cut into paragraphs. *)
Definition set_text (pos : nat) (v : json) (slide : Slide) : result Slide :=
  match v with
  | JStr s => Ok (write_text pos s slide)
  | _ => Raise (AttributeError (type_name v) "split")
  end.

(** *** Slides of a presentation *)

(** [prs.part.related_slide(rId)] *)
Definition related_slide (prs : Presentation) (rId : string) : result Slide :=
  match rels prs !! rId with
  | Some (SlidePart s) => Ok s
  | Some (OtherPart n) => Raise (AttributeError n "slide")
  | None => Raise (KeyError ("no relationship with key " +:+ quote rId))
  end.

(** [list(prs.slides)] *)
Definition slides (prs : Presentation) : result (list Slide) :=
  mapM (related_slide prs) (sldIdLst prs).

(** [prs.slide_layouts[i]] *)
Definition layouts_getitem (prs : Presentation) (i : nat) : result SlideLayout :=
  match slide_layouts prs !! i with
  | Some l => Ok l
  | None => Raise (IndexError "slide layout index out of range")
  end.

(** *** Adding a slide *)

(** The next free rId: candidates [rId<n>] from [len(rels) + 1] downwards. *)
Fixpoint next_rId_from (rels : gmap string Part) (n : nat) : result string :=
  match n with
  | 0 => Raise (Exn "Exception"
            "ProgrammingError: Impossible to have more distinct rIds than relationships")
  | S m =>
      let rId_candidate := "rId" +:+ pretty n in
      if bool_decide (is_Some (rels !! rId_candidate))
      then next_rId_from rels m
      else Ok rId_candidate
  end.

Definition next_rId (rels : gmap string Part) : result string :=
  next_rId_from rels (size rels + 1).

(** Date, footer and slide-number placeholders of a layout are not cloned. *)
Definition iter_cloneable_placeholders (layout : SlideLayout)
  : list LayoutPlaceholder :=
  filter (λ ph, lph_type ph ∉ [DATE; FOOTER; SLIDE_NUMBER])
         (layout_placeholders layout).

Definition clone_placeholder (ph : LayoutPlaceholder) : Shape :=
  mkShape (Some (lph_idx ph)) (Some EmptyString).

(** The slide a layout gives: its cloneable placeholders, empty. *)
Definition new_slide (layout : SlideLayout) : Slide :=
  mkSlide (map clone_placeholder (iter_cloneable_placeholders layout)).

(** [prs.slides.add_slide(layout)]: a new slide part, related under a new
    rId, and a [<p:sldId>] appended.  The rId stands for the slide object
    returned. *)
Definition add_slide (layout : SlideLayout) (prs : Presentation)
  : result (string * Presentation) :=
  rId ← next_rId (rels prs);
  Ok (rId, mkPresentation (sldIdLst prs ++ [rId])
                          (<[rId := SlidePart (new_slide layout)]> (rels prs))
                          (slide_layouts prs)).

(** Writing back the slide object held under [rId]. *)
Definition store_slide (rId : string) (slide : Slide) (prs : Presentation)
  : Presentation :=
  mkPresentation (sldIdLst prs) (<[rId := SlidePart slide]> (rels prs))
                 (slide_layouts prs).

(** *** Dropping a relationship *)

(** Number of [r:id] references to [rId] in the presentation element; the
    slide ids are the references kept in the model. *)
Definition rel_ref_count (prs : Presentation) (rId : string) : nat :=
  length (filter (λ r, r = rId) (sldIdLst prs)).

(** [prs.part.drop_rel(rId)]: the relationship is removed when referenced
    less than twice. *)
Definition drop_rel (rId : string) (prs : Presentation) : result Presentation :=
  if bool_decide (rel_ref_count prs rId < 2) then
    match rels prs !! rId with
    | Some _ =>
        Ok (mkPresentation (sldIdLst prs) (delete rId (rels prs)) (slide_layouts prs))
    | None => Raise (KeyError rId)
    end
  else Ok prs.

(** *** Files *)

(** A byte string either is a container python-pptx opens, here identified
    with the presentation it holds, or one it rejects with an exception. *)
Inductive bytes :=
| Package (prs : Presentation)
| Corrupt (e : exn).

(** [Presentation(io.BytesIO(file_data))] *)
Definition Presentation_open (file_data : bytes) : result Presentation :=
  match file_data with
  | Package prs => Ok prs
  | Corrupt e => Raise e
  end.

(** [prs.save(file_stream)] *)
Definition save (prs : Presentation) : bytes := Package prs.

(** *** Proxy objects

    python-pptx hands out a shape as a proxy object around its XML element,
    and builds a new proxy on every access: iterating [slide.shapes] and
    reading [slide.shapes.title] both go through the shape factory.  Two
    proxies of one element are equal under [==], but they are two objects.
    The extractor compares proxies with [is], so object identity is part of
    the model: [Obj] threads the allocation counter of the object store. *)

Record proxy := Proxy { obj_id : nat; element : Shape }.

Definition Obj (A : Type) : Type := nat → result (A * nat).

Global Instance Obj_ret : MRet Obj := λ A a next, Ok (a, next).
Global Instance Obj_bind : MBind Obj := λ A B f m next,
  match m next with
  | Ok (a, next') => f a next'
  | Raise e => Raise e
  end.

Definition lift {A} (r : result A) : Obj A := λ next,
  match r with Ok a => Ok (a, next) | Raise e => Raise e end.

(** Runs a computation in a store where [next] objects exist. *)
Definition run_from {A} (next : nat) (m : Obj A) : result A :=
  match m next with Ok (a, _) => Ok a | Raise e => Raise e end.

(** The shape factory: a fresh proxy object for the element. *)
Definition shape_factory (elm : Shape) : Obj proxy := λ next,
  Ok (Proxy next elm, S next).

(** [slide.shapes.title] *)
Definition shapes_title (slide : Slide) : Obj (option proxy) :=
  match title_elm slide with
  | Some (_, elm) => p ← shape_factory elm; mret (Some p)
  | None => mret None
  end.

(** [p is not q], where [q] may be [None]. *)
Definition is_not (p : proxy) (q : option proxy) : bool :=
  match q with
  | Some q' => negb (obj_id p =? obj_id q')%nat
  | None => true
  end.

(** ** What the handlers depend on and do not define

    [base64.b64decode] and the template [Presentation()] opens. *)

Class Environment := {
  b64decode : json → result bytes;
  default_template : Presentation }.

(** ** Responses *)

(** [jsonify body status] is the JSON response with that status;
    [send_file file_stream download_name mimetype] is the response a
    successful call of Flask's [send_file] makes: the stream as an
    attachment under that name. *)
Inductive response :=
| jsonify (body : json) (status : nat)
| send_file (file_stream : bytes) (download_name : json) (mimetype : string).

(** What a call of a view function ends in: the response it returns, or an
    exception it lets through to the framework. *)
Inductive outcome :=
| Returned (r : response)
| Uncaught (e : exn).

Definition error_response (e : exn) : response :=
  jsonify (JObj [("error", JStr (exn_str e))]) 500.

(** [try: body  except Exception as e: return jsonify({"error": str(e)}), 500] *)
Definition try_except (body : result response) : response :=
  match body with
  | Ok r => r
  | Raise e => error_response e
  end.

Definition pptx_mimetype : string :=
  "application/vnd.openxmlformats-officedocument.presentationml.presentation".

(** A carriage return or a line feed in [s]: what a header value must not
    hold. *)
Definition has_newline (s : string) : bool :=
  str_contains CR s || str_contains LF s.

(** The call [send_file(file_stream, as_attachment=True,
    download_name=..., mimetype=...)] of lines 111 to 116, on a stream that
    is not a path.  An attachment needs a name: [None] is a [TypeError].
    The name is encoded for the Content-Disposition header, which only a
    [str] allows, and the header is refused when its value holds a line
    break. *)
Definition flask_send_file
    (file_stream : bytes) (download_name : json) (mimetype : string)
  : result response :=
  match download_name with
  | JNull =>
      Raise (TypeError ("No name provided for attachment. Either set"
                        +:+ " 'download_name' or pass a path instead of a file."))
  | JStr name =>
      if has_newline name
      then Raise (ValueError "Header values must not contain newline characters.")
      else Ok (send_file file_stream download_name mimetype)
  | _ => Raise (AttributeError (type_name download_name) "encode")
  end.

(** ** [extract_powerpoint] *)

(** [slide.shapes.title.text if slide.shapes.title else <empty>] *)
Definition slide_title (slide : Slide) : Obj string :=
  cond ← shapes_title slide;
  match cond with
  | Some _ =>
      t ← shapes_title slide;
      match t with
      | Some p => lift (shape_text (element p))
      | None => lift (Raise (AttributeError "NoneType" "text"))
      end
  | None => mret EmptyString
  end.

(** [[shape.text for shape in slide.shapes
      if shape.has_text_frame and shape is not slide.shapes.title]],
    over the elements [elms] that remain to be iterated. *)
Fixpoint shape_texts (slide : Slide) (elms : list Shape) : Obj (list string) :=
  match elms with
  | [] => mret []
  | elm :: rest =>
      shape ← shape_factory elm;
      keep ← (if has_text_frame (element shape)
              then (t ← shapes_title slide; mret (is_not shape t))
              else mret false);
      here ← (if (keep : bool)
              then (t ← lift (shape_text (element shape)); mret [t])
              else mret []);
      more ← shape_texts slide rest;
      mret (here ++ more)%list
  end.

Definition slide_content (i : nat) (slide : Slide) : Obj json :=
  title ← slide_title slide;
  content ← shape_texts slide (spTree slide);
  mret (JObj [("slide_number", JNum (Z.of_nat i + 1));
              ("title", JStr title);
              ("content", JArr (map JStr content))]).

(** [for i, slide in enumerate(prs.slides)], from index [i] on. *)
Fixpoint slides_content (prs : Presentation) (i : nat) (rIds : list string)
  : Obj (list json) :=
  match rIds with
  | [] => mret []
  | rId :: rest =>
      slide ← lift (related_slide prs rId);
      c ← slide_content i slide;
      cs ← slides_content prs (S i) rest;
      mret (c :: cs)
  end.

Definition extract_body (file_data : bytes) : result response :=
  prs ← Presentation_open file_data;
  slides_content ← run_from 0 (slides_content prs 0 (sldIdLst prs));
  Ok (jsonify (JObj [("slides", JArr slides_content)]) 200).

Definition extract_powerpoint `{Environment} (data : json) : outcome :=
  match py_getitem data "file_data" ≫= b64decode with
  | Raise e => Uncaught e
  | Ok file_data => Returned (try_except (extract_body file_data))
  end.

(** ** [update_powerpoint] *)

(** The condition
    [original_file and original_file != 'null' and original_file.strip()]. *)
Definition update_mode (original_file : json) : result bool :=
  if negb (truthy original_file) then Ok false
  else if eq_str original_file "null" then Ok false
  else s ← py_strip original_file; Ok (truthy (JStr s)).

(** The [else] branch: [prs = Presentation()], and the removal of the
    default slide when there is one. *)
Definition create_presentation `{Environment} : result Presentation :=
  let prs := default_template in
  if bool_decide (0 < length (sldIdLst prs)) then
    match sldIdLst prs !! 0 with
    | Some slide_part =>
        prs ← drop_rel slide_part prs;
        Ok (mkPresentation (drop 1 (sldIdLst prs)) (rels prs) (slide_layouts prs))
    | None => Raise (IndexError "list index out of range")
    end
  else Ok prs.

Definition open_presentation `{Environment} (original_file : json)
  : result Presentation :=
  update ← update_mode original_file;
  if (update : bool)
  then (file_data ← b64decode original_file; Presentation_open file_data)
  else create_presentation.

(** Line 77, the index read in the last branch: the blank layout when the
    gallery has more than 6 layouts. *)
Definition fallback_index (n : nat) : nat :=
  if bool_decide (6 < n) then 6 else 0.

(** The index the layout is read at, for a gallery of [n] layouts. *)
Definition layout_index (n : nat) : nat :=
  if bool_decide (1 < n) then 1
  else if bool_decide (0 < n) then 0
  else fallback_index n.

Definition select_layout (prs : Presentation) : result SlideLayout :=
  layouts_getitem prs (layout_index (length (slide_layouts prs))).

(** [k in slide_data and slide_data[k]] as a condition. *)
Definition present_and_truthy (k : string) (slide_data : json) : result bool :=
  present ← py_contains k slide_data;
  if (present : bool)
  then (v ← py_getitem slide_data k; Ok (truthy v))
  else Ok false.

(** The value of [content_lines] after lines 92 to 98; [len] is what the
    [print] of each branch evaluates. *)
Definition content_lines (slide_data : json) : result json :=
  use_bullets ← present_and_truthy "bullets" slide_data;
  if (use_bullets : bool) then
    (lines ← py_getitem slide_data "bullets"; _ ← py_len lines; Ok lines)
  else
    (use_content ← present_and_truthy "content" slide_data;
     if (use_content : bool) then
       (lines ← py_getitem slide_data "content"; _ ← py_len lines; Ok lines)
     else Ok (JArr [])).

(** Lines 83 to 85. *)
Definition fill_title (slide_data : json) (slide : Slide) : result Slide :=
  has_title ← py_contains "title" slide_data;
  match (if (has_title : bool) then title_elm slide else None) with
  | Some (pos, _) =>
      title ← py_getitem slide_data "title";
      set_text pos title slide
  | None => Ok slide
  end.

(** Lines 88 to 101. *)
Definition fill_content (slide_data : json) (slide : Slide) : result Slide :=
  if bool_decide (1 < placeholders_len slide) then
    content_placeholder ← placeholders_getitem slide 1;
    lines ← content_lines slide_data;
    if truthy lines then
      (text ← py_join LF lines;
       set_text content_placeholder (JStr text) slide)
    else Ok slide
  else Ok slide.

(** The body of the loop over the outline: one slide appended. *)
Definition add_outline_slide (slide_data : json) (prs : Presentation)
  : result Presentation :=
  _ ← py_get slide_data "title" (JStr "No title");
  layout ← select_layout prs;
  '(rId, prs) ← add_slide layout prs;
  slide ← related_slide prs rId;
  slide ← fill_title slide_data slide;
  slide ← fill_content slide_data slide;
  Ok (store_slide rId slide prs).

(** Lines 62 to 101. *)
Definition add_outline (update_instructions : json) (prs : Presentation)
  : result Presentation :=
  has_slides ← py_contains "slides" update_instructions;
  if (has_slides : bool) then
    (outline ← py_getitem update_instructions "slides";
     _ ← py_len outline;
     entries ← py_iter outline;
     for_each add_outline_slide entries prs)
  else Ok prs.

(** The document the handler builds, before it is saved. *)
Definition synthesize `{Environment} (original_file update_instructions : json)
  : result Presentation :=
  prs ← open_presentation original_file;
  add_outline update_instructions prs.

Definition update_body `{Environment}
    (original_file update_instructions filename : json) : result response :=
  prs ← synthesize original_file update_instructions;
  flask_send_file (save prs) filename pptx_mimetype.

Definition update_powerpoint `{Environment} (data : json) : outcome :=
  match (original_file ← py_get data "original_file" JNull;
         update_instructions ← py_getitem data "update_instructions";
         filename ← py_get data "file_name" (JStr "presentation.pptx");
         Ok (original_file, update_instructions, filename)) with
  | Raise e => Uncaught e
  | Ok (original_file, update_instructions, filename) =>
      Returned (try_except (update_body original_file update_instructions filename))
  end.

(** ** A concrete environment

    A template in the manner of python-pptx's default one, here with a
    seeded first slide, and a decoder that knows finitely many base64 texts:
    every other text is malformed. *)

Module Fixture.

Definition footers : list LayoutPlaceholder :=
  [mkLayoutPlaceholder 10 DATE; mkLayoutPlaceholder 11 FOOTER;
   mkLayoutPlaceholder 12 SLIDE_NUMBER].

Definition title_slide_layout : SlideLayout :=
  mkSlideLayout
    (mkLayoutPlaceholder 0 CENTER_TITLE :: mkLayoutPlaceholder 1 SUBTITLE :: footers).

Definition title_and_content_layout : SlideLayout :=
  mkSlideLayout
    (mkLayoutPlaceholder 0 TITLE :: mkLayoutPlaceholder 1 OBJECT :: footers).

Definition title_only_layout : SlideLayout :=
  mkSlideLayout (mkLayoutPlaceholder 0 TITLE :: footers).

Definition other_parts : gmap string Part :=
  <["rId1" := OtherPart "SlideMasterPart"]>
    (<["rId2" := OtherPart "PresentationPropertiesPart"]>
       (<["rId3" := OtherPart "ThemePart"]> ∅)).

Definition template : Presentation :=
  mkPresentation ["rId4"]
    (<["rId4" := SlidePart (new_slide title_slide_layout)]> other_parts)
    [title_slide_layout; title_and_content_layout; title_only_layout].

Definition agenda_slide : Slide :=
  mkSlide [mkShape (Some 0) (Some "Agenda");
           mkShape (Some 1) (Some "First item");
           mkShape None None].

(** A deck with one slide: a title, a body, and a picture. *)
Definition deck : Presentation :=
  mkPresentation ["rId4"] (<["rId4" := SlidePart agenda_slide]> other_parts)
    [title_slide_layout; title_and_content_layout].

Definition intro_slide : Slide :=
  mkSlide [mkShape (Some 0) (Some "Intro");
           mkShape (Some 1) (Some ("Point 1" +:+ LF +:+ "Point 2"))].

(** The deck the handler makes of [intro_outline] on [template]. *)
Definition intro_deck : Presentation :=
  mkPresentation ["rId4"] (<["rId4" := SlidePart intro_slide]> other_parts)
    [title_slide_layout; title_and_content_layout; title_only_layout].

(** [deck] with the slide of [intro_outline] appended. *)
Definition updated_deck : Presentation :=
  mkPresentation ["rId4"; "rId5"]
    (<["rId5" := SlidePart intro_slide]> (rels deck))
    (slide_layouts deck).

(** A title with a carriage return in it, and the deck the handler makes
    of it on [template]. *)
Definition return_outline : json :=
  JObj [("slides", JArr [JObj [("title", JStr ("Q1" +:+ CR +:+ "Q2"))]])].

Definition return_deck : Presentation :=
  mkPresentation ["rId4"]
    (<["rId4" := SlidePart (mkSlide [mkShape (Some 0) (Some "Q1_x000D_Q2");
                                     mkShape (Some 1) (Some EmptyString)])]>
       other_parts)
    [title_slide_layout; title_and_content_layout; title_only_layout].

(** A layout of a custom template: a title and a body whose idx is 13. *)
Definition custom_layout : SlideLayout :=
  mkSlideLayout
    (mkLayoutPlaceholder 0 TITLE :: mkLayoutPlaceholder 13 BODY :: footers).

(** A deck without slides whose gallery has [custom_layout] at index 1. *)
Definition custom_deck : Presentation :=
  mkPresentation [] other_parts [title_slide_layout; custom_layout].

Definition binascii_Error : exn := Exn "Error" "Incorrect padding".
Definition BadZipFile : exn := Exn "BadZipFile" "File is not a zip file".

Definition decode (files : list (string * bytes)) (v : json) : result bytes :=
  match v with
  | JStr s =>
      match list_find (λ f, f.1 = s) files with
      | Some (_, f) => Ok f.2
      | None => Raise binascii_Error
      end
  | _ =>
      Raise (TypeError ("argument should be a bytes-like object or ASCII string, not "
                        +:+ quote (type_name v)))
  end.

Definition files : list (string * bytes) :=
  [("REVDSw==", Package deck); ("SU5UUk8=", Package intro_deck);
   ("Tk9UQVpJUA==", Corrupt BadZipFile); ("UkVUVVJO", Package return_deck);
   ("Q1VTVE9N", Package custom_deck)].

Definition env : Environment :=
  {| b64decode := decode files; default_template := template |}.

Definition intro_outline : json :=
  JObj [("slides",
         JArr [JObj [("title", JStr "Intro");
                     ("bullets", JArr [JStr "Point 1"; JStr "Point 2"])]])].

End Fixture.

(** ** The specification's reading of the request *)

(** Every character of [s] is whitespace. *)
Fixpoint all_space (s : string) : bool :=
  match s with
  | EmptyString => true
  | String c r => py_isspace c && all_space r
  end.

(** A blank value: a string that is empty or whitespace throughout. *)
Definition blank (v : json) : bool :=
  match v with JStr s => all_space s | _ => false end.

(** The mode test in the words of the specification: update mode when the
    existing-document field is present, is not null, and is not blank. *)
Definition present_non_null_non_blank (field : option json) : bool :=
  match field with
  | None | Some JNull => false
  | Some v => negb (blank v)
  end.

(** The same test with what the handler adds to it: the text null stands
    for no document, as null does. *)
Definition selects_update (field : option json) : bool :=
  present_non_null_non_blank field &&
  match field with
  | Some (JStr s) => negb (String.eqb s "null")
  | _ => true
  end.

(** A text without a character that is written escaped: it is read back
    as it was assigned. *)
Fixpoint plain (s : string) : bool :=
  match s with
  | EmptyString => true
  | String c r => negb (escaped c) && plain r
  end.

(** A download name [send_file] accepts: a string without a line break. *)
Definition accepted_name (filename : json) : bool :=
  match filename with
  | JStr name => negb (has_newline name)
  | _ => false
  end.

(** A list of strings as it arrives in a request. *)
Definition str_list (l : list string) : json := JArr (map JStr l).

(** The content lines in the words of the specification: [bullets] when
    present and non-empty, else [content] when present and non-empty, else
    nothing. *)
Definition spec_content_lines (bullets content : option (list string))
  : list string :=
  match bullets with
  | Some (b :: bs) => b :: bs
  | _ => match content with
         | Some (c :: cs) => c :: cs
         | _ => []
         end
  end.

(** The slide an outline entry gives on a layout: the new slide, with
    lines 83 to 101 applied. *)
Definition outline_slide (layout : SlideLayout) (slide_data : json)
  : result Slide :=
  slide ← fill_title slide_data (new_slide layout);
  fill_content slide_data slide.

(** The outline entries the loop of lines 62 to 65 runs over: none when
    [update_instructions] has no 'slides'. *)
Definition outline_entries (update_instructions : json) : result (list json) :=
  has_slides ← py_contains "slides" update_instructions;
  if (has_slides : bool) then
    (outline ← py_getitem update_instructions "slides";
     _ ← py_len outline;
     py_iter outline)
  else Ok [].

(** An outline entry as the specification's data model has it: an object
    whose title, when present, is a string, and whose bullets and content,
    when present, are lists of strings. *)
Definition entry_ok (e : json) : Prop :=
  ∃ fields (title : option string) (bullets content : option (list string)),
    e = JObj fields ∧
    dict_get fields "title" = JStr <$> title ∧
    dict_get fields "bullets" = str_list <$> bullets ∧
    dict_get fields "content" = str_list <$> content.

(** A layout whose slides have a placeholder of idx 1 whenever they have
    more than one placeholder. *)
Definition layout_ok (layout : SlideLayout) : Prop :=
  1 < placeholders_len (new_slide layout) → is_Some (find_ph 1 (new_slide layout)).

(** ** Notions used to state further properties *)

Definition is_dict (v : json) : bool :=
  match v with JObj _ => true | _ => false end.

Definition is_str (v : json) : bool :=
  match v with JStr _ => true | _ => false end.

(** A presentation whose slide ids are distinct and all resolve to slide
    parts. *)
Definition well_formed (prs : Presentation) : Prop :=
  NoDup (sldIdLst prs) ∧
  ∀ r, r ∈ sldIdLst prs → ∃ s, rels prs !! r = Some (SlidePart s).

(** The text [slide.shapes.title.text] reads, and the empty string for a
    slide without a title shape. *)
Definition title_text (slide : Slide) : result string :=
  match title_elm slide with
  | Some (_, sh) => shape_text sh
  | None => Ok EmptyString
  end.

(** The entry of a slide at position [i] whose title reads [title]. *)
Definition slide_entry (i : nat) (slide : Slide) (title : string) : json :=
  JObj [("slide_number", JNum (Z.of_nat i + 1));
        ("title", JStr title);
        ("content", JArr (map JStr (omap text_frame (spTree slide))))].

Fixpoint slide_entries (i : nat) (ss : list Slide) (ts : list string) : list json :=
  match ss, ts with
  | s :: ss', t :: ts' => slide_entry i s t :: slide_entries (S i) ss' ts'
  | _, _ => []
  end.

(** ** The build script: [main] of [build_executable.py]

    The four step functions install packages, run PyInstaller and start the
    executable; [main] only calls them, in order, so they are parameters
    here.  The world is whatever they act on, together with the standard
    output; texts printed are kept as their UTF-8 bytes. *)

Module Build.

(** [s * n] for a string [s]. *)
Fixpoint str_repeat (s : string) (n : nat) : string :=
  match n with
  | 0 => EmptyString
  | S m => s +:+ str_repeat s m
  end.

(** How a run of the script ends: [main] returns, [sys.exit(code)], or an
    exception a step raised and nothing catches. *)
Inductive ending :=
| Completed
| SystemExit (code : Z)
| Propagated (e : exn).

Section main.

Context {World : Type}.
Variable print : string → World → World.
Variable chdir_to_script : World → World.

(** A call of a step function: the boolean it returns or the exception it
    raises, and the world it leaves. *)
Definition step : Type := World → result bool * World.

(** Lines 168 to 172: the loop over the steps. *)
Fixpoint run_steps (steps : list (string * step)) (w : World) : ending * World :=
  match steps with
  | [] => (Completed, w)
  | (step_name, step_func) :: rest =>
      let w := print (LF +:+ "📋 " +:+ step_name +:+ "...") w in
      match step_func w with
      | (Ok true, w) => run_steps rest w
      | (Ok false, w) =>
          (SystemExit 1, print (LF +:+ "❌ Build failed at: " +:+ step_name) w)
      | (Raise e, w) => (Propagated e, w)
      end
  end.

Variables install_pyinstaller install_dependencies build_executable
          test_executable : step.

Definition steps : list (string * step) :=
  [("Installing PyInstaller", install_pyinstaller);
   ("Installing Dependencies", install_dependencies);
   ("Building Executable", build_executable);
   ("Testing Executable", test_executable)].

(** The world the loop starts in: lines 155 to 159. *)
Definition before_steps (w : World) : World :=
  let w := print "🔧 PowerPoint Generator - Building Standalone Executable" w in
  let w := print (str_repeat "=" 60) w in
  chdir_to_script w.

(** Lines 174 to 179. *)
Definition after_steps (w : World) : World :=
  let w := print (LF +:+ str_repeat "=" 60) w in
  let w := print "✅ Build completed successfully!" w in
  let w := print (LF +:+ "Next steps:") w in
  let w := print "1. The executable is ready in python/dist/" w in
  let w := print "2. Run 'npm run build' to create the full application package" w in
  print "3. Users can now run the app without installing Python" w.

Definition main (w : World) : ending * World :=
  match run_steps steps (before_steps w) with
  | (Completed, w) => (Completed, after_steps w)
  | stopped => stopped
  end.

End main.

(** A world that is only the standard output, for examples. *)
Definition transcript_print (s : string) (out : list string) : list string :=
  out ++ [s].
Definition succeed : @step (list string) := λ out, (Ok true, out).
Definition fail_with (msg : string) : @step (list string) :=
  λ out, (Ok false, transcript_print msg out).

End Build.

(** * Properties *)

(** ** The error monad *)

Lemma bind_Ok {A B} (m : result A) (f : A → result B) (b : B) :
  m ≫= f = Ok b ↔ ∃ a, m = Ok a ∧ f a = Ok b.
Proof.
  destruct m as [a|e]; simpl; split.
  - intros Hf. by exists a.
  - by intros (a' & [= <-] & Hf).
  - intros [=].
  - by intros (a' & [=] & _).
Qed.

Lemma bind_assoc {A B C} (m : result A) (f : A → result B) (g : B → result C) :
  (m ≫= f) ≫= g = m ≫= (λ a, f a ≫= g).
Proof. by destruct m. Qed.

Lemma try_except_send_file body file_stream name mimetype :
  try_except body = send_file file_stream name mimetype →
  body = Ok (send_file file_stream name mimetype).
Proof. destruct body as [r|e]; simpl; [by intros -> | intros [=]]. Qed.

(** The only response [send_file] makes is the attachment. *)
Lemma flask_send_file_Ok file_stream download_name mimetype (resp : response) :
  flask_send_file file_stream download_name mimetype = Ok resp →
  resp = send_file file_stream download_name mimetype.
Proof.
  unfold flask_send_file. destruct download_name as [| | | name | | ]; try done.
  destruct (has_newline name); [done|]. by intros [= <-].
Qed.

Lemma flask_send_file_accepted file_stream filename mimetype :
  accepted_name filename = true →
  flask_send_file file_stream filename mimetype
  = Ok (send_file file_stream filename mimetype).
Proof.
  destruct filename as [| | | name | | ]; try done. simpl.
  by intros ->%negb_true_iff.
Qed.

(** Splits hypotheses of the form [m ≫= f = Ok b]. *)
Ltac inv_bind H :=
  let a := fresh "a" in
  let Ha := fresh "Ha" in
  apply bind_Ok in H as (a & Ha & H).

(** ** Requests without a required key *)

(** C9: a request body without the key 'file_data' (extract endpoint) or
    'update_instructions' (update endpoint) makes the handler raise
    [KeyError] before its exception guard is entered: the exception leaves
    the handler, and no [{"error": ...}] payload is returned. *)
Theorem missing_key_uncaught `{Environment} (fields : list (string * json)) :
  (dict_get fields "file_data" = None →
   extract_powerpoint (JObj fields) = Uncaught (KeyError "file_data")) ∧
  (dict_get fields "update_instructions" = None →
   update_powerpoint (JObj fields) = Uncaught (KeyError "update_instructions")).
Proof.
  split; intros Hnone.
  - unfold extract_powerpoint. simpl. by rewrite Hnone.
  - unfold update_powerpoint. simpl. by rewrite Hnone.
Qed.

Lemma missing_key_uncaught_witness :
  @extract_powerpoint Fixture.env (JObj [("file_name", JStr "a.pptx")])
    = Uncaught (KeyError "file_data") ∧
  @update_powerpoint Fixture.env (JObj [("file_name", JStr "a.pptx")])
    = Uncaught (KeyError "update_instructions").
Proof.
  split.
  - apply (proj1 (@missing_key_uncaught Fixture.env [("file_name", JStr "a.pptx")])).
    reflexivity.
  - apply (proj2 (@missing_key_uncaught Fixture.env [("file_name", JStr "a.pptx")])).
    reflexivity.
Defined.

(** ** Decoding and parsing failures *)

(** In the update endpoint the decoding and the parsing of the document are
    inside the guard: both failures give the JSON error response. *)
Lemma update_decode_failure_caught `{Environment}
    (original_file update_instructions filename : json) (e : exn) :
  update_mode original_file = Ok true →
  b64decode original_file = Raise e ∨ b64decode original_file = Ok (Corrupt e) →
  try_except (update_body original_file update_instructions filename)
    = error_response e.
Proof.
  intros Hmode Hfail.
  unfold update_body, synthesize, open_presentation.
  rewrite Hmode. simpl. by destruct Hfail as [-> | ->].
Qed.

(** In the extract endpoint a document that does not parse gives the JSON
    error response. *)
Lemma extract_parse_failure_caught `{Environment}
    (fields : list (string * json)) (v : json) (e : exn) :
  dict_get fields "file_data" = Some v →
  b64decode v = Ok (Corrupt e) →
  extract_powerpoint (JObj fields) = Returned (error_response e).
Proof.
  intros Hv Hdec. unfold extract_powerpoint. simpl. rewrite Hv. simpl.
  by rewrite Hdec.
Qed.

(** C3, at the extract endpoint: [base64.b64decode] is called before the
    [try], so its failure is not turned into the [{"error": ...}] response;
    the exception leaves the handler. *)
Theorem extract_decode_failure_uncaught `{Environment}
    (fields : list (string * json)) (v : json) (e : exn) :
  dict_get fields "file_data" = Some v →
  b64decode v = Raise e →
  extract_powerpoint (JObj fields) = Uncaught e.
Proof.
  intros Hv Hdec. unfold extract_powerpoint. simpl. rewrite Hv. simpl.
  by rewrite Hdec.
Qed.

Lemma extract_decode_failure_uncaught_witness :
  @extract_powerpoint Fixture.env (JObj [("file_data", JStr "abc")])
    = Uncaught Fixture.binascii_Error.
Proof.
  apply (@extract_decode_failure_uncaught Fixture.env
           [("file_data", JStr "abc")] (JStr "abc") Fixture.binascii_Error);
    reflexivity.
Defined.

(** ** Layout selection *)

(** C4: the layout is read at index 1 when the gallery has more than one
    layout and at index 0 otherwise; the fallback of line 77, index 6 for a
    gallery of more than 6 layouts, is what is read only once both earlier
    tests have failed: a gallery of more than 6 layouts is read at index 1. *)
Theorem layout_fallback_chain (prs : Presentation) :
  let n := length (slide_layouts prs) in
  (1 < n → select_layout prs = layouts_getitem prs 1) ∧
  (¬ 1 < n → select_layout prs = layouts_getitem prs 0) ∧
  (¬ 1 < n → ¬ 0 < n → layout_index n = fallback_index n) ∧
  (6 < n → fallback_index n = 6 ∧ select_layout prs = layouts_getitem prs 1).
Proof.
  intros n. unfold select_layout, layout_index, fallback_index. fold n.
  repeat split; intros; repeat case_bool_decide; by (reflexivity || lia).
Qed.

Lemma layout_fallback_chain_witness :
  select_layout Fixture.template = Ok Fixture.title_and_content_layout ∧
  select_layout (mkPresentation [] ∅ [Fixture.title_only_layout])
    = Ok Fixture.title_only_layout ∧
  layout_index 0 = fallback_index 0 ∧
  select_layout (mkPresentation [] ∅ (Fixture.title_slide_layout ::
                   replicate 6 Fixture.title_only_layout))
    = Ok Fixture.title_only_layout.
Proof.
  split; [|split; [|split]].
  - rewrite (proj1 (layout_fallback_chain Fixture.template)); [reflexivity|].
    simpl. lia.
  - rewrite (proj1 (proj2 (layout_fallback_chain
                (mkPresentation [] ∅ [Fixture.title_only_layout])))); [reflexivity|].
    simpl. lia.
  - apply (proj1 (proj2 (proj2 (layout_fallback_chain (mkPresentation [] ∅ [])))));
      simpl; lia.
  - rewrite (proj2 (proj2 (proj2 (proj2 (layout_fallback_chain
               (mkPresentation [] ∅ (Fixture.title_slide_layout ::
                  replicate 6 Fixture.title_only_layout))))) ltac:(simpl; lia))).
    reflexivity.
Defined.

(** ** Mode selection *)

Lemma lstrip_all_space (s : string) :
  all_space s = true → lstrip s = EmptyString.
Proof.
  induction s as [|c r IH]; simpl; [done|].
  intros [Hc Hr]%andb_true_iff. rewrite Hc. by apply IH.
Qed.

Lemma lstrip_not_all_space (s : string) :
  all_space s = false →
  ∃ c r, lstrip s = String c r ∧ py_isspace c = false.
Proof.
  induction s as [|c r IH]; simpl; [done|].
  destruct (py_isspace c) eqn:Hc; simpl; [done|].
  intros _. by exists c, r.
Qed.

Lemma all_space_rev_app (s1 s2 : string) :
  all_space (String.rev_app s1 s2) = all_space s1 && all_space s2.
Proof.
  revert s2. induction s1 as [|c r IH]; intros s2; simpl; [done|].
  rewrite IH. simpl. destruct (py_isspace c), (all_space r); simpl; try done.
Qed.

Lemma rev_app_empty (s1 s2 : string) :
  String.rev_app s1 s2 = EmptyString → s1 = EmptyString ∧ s2 = EmptyString.
Proof.
  revert s2. induction s1 as [|c r IH]; intros s2; simpl; [done|].
  intros Hrev. by destruct (IH _ Hrev) as [_ ?].
Qed.

(** [s.strip()] is empty exactly when [s] is whitespace throughout. *)
Lemma strip_empty_iff (s : string) :
  strip s = EmptyString ↔ all_space s = true.
Proof.
  unfold strip, rstrip, String.rev. split.
  - intros Hstrip. destruct (all_space s) eqn:Hs; [done|].
    destruct (lstrip_not_all_space s Hs) as (c & r & Hl & Hc).
    apply rev_app_empty in Hstrip as [Hstrip _].
    assert (all_space (String.rev_app (lstrip s) EmptyString) = false) as Hrev.
    { rewrite all_space_rev_app, Hl. simpl. by rewrite Hc. }
    destruct (lstrip_not_all_space _ Hrev) as (c' & r' & Hl' & _). congruence.
  - intros Hs. by rewrite (lstrip_all_space s Hs).
Qed.

(** Line 44 on a string: the three tests come to two, the text is not
    null and not whitespace throughout. *)
Lemma update_mode_str (s : string) :
  update_mode (JStr s) = Ok (negb (String.eqb s "null") && negb (all_space s)).
Proof.
  unfold update_mode. simpl.
  destruct (String.eqb_spec s EmptyString) as [-> | Hs]; [done|]. simpl.
  destruct (String.eqb s "null"); [done|]. simpl. do 2 f_equal.
  destruct (String.eqb_spec (strip s) EmptyString) as [Hstrip | Hstrip].
  - apply strip_empty_iff in Hstrip. by rewrite Hstrip.
  - destruct (all_space s) eqn:Hsp; [|done].
    by apply strip_empty_iff in Hsp.
Qed.

Lemma selects_update_str (s : string) :
  selects_update (Some (JStr s)) = negb (String.eqb s "null") && negb (all_space s).
Proof. unfold selects_update. simpl. apply andb_comm. Qed.

(** C7, amended: with an existing-document field that is absent, null or a
    string, the handler opens the supplied document exactly when the field
    is present, not null, not blank, and not the text null either, and
    builds a fresh document from the template otherwise; the download name
    is "presentation.pptx" when the key file_name is absent. *)
Theorem mode_and_filename `{Environment}
    (fields : list (string * json)) (update_instructions : json) :
  dict_get fields "update_instructions" = Some update_instructions →
  (∀ v, dict_get fields "original_file" = Some v → v = JNull ∨ ∃ s, v = JStr s) →
  let original_file := dict_get fields "original_file" in
  let filename := default (JStr "presentation.pptx") (dict_get fields "file_name") in
  (selects_update original_file = true ↔
   present_non_null_non_blank original_file = true
   ∧ original_file ≠ Some (JStr "null"))
  ∧ update_powerpoint (JObj fields) =
    Returned (try_except (
      prs ← (if selects_update original_file
             then (file_data ← b64decode (default JNull original_file);
                   Presentation_open file_data)
             else create_presentation);
      prs ← add_outline update_instructions prs;
      flask_send_file (save prs) filename pptx_mimetype))
  ∧ (dict_get fields "file_name" = None → filename = JStr "presentation.pptx").
Proof.
  intros Hui Hfile original_file filename. split; [|split].
  - subst original_file.
    destruct (dict_get fields "original_file") as [v|] eqn:Hof; [|by split; [|intros []]].
    destruct (Hfile v eq_refl) as [-> | [s ->]]; [by split; [|intros []]|].
    unfold selects_update. rewrite andb_true_iff, negb_true_iff.
    split; intros [Hspec Hnull]; (split; [done|]).
    + intros [= ->]. done.
    + destruct (String.eqb_spec s "null") as [-> | Hne]; [by destruct Hnull | done].
  - unfold update_powerpoint. simpl. rewrite Hui. simpl.
    do 2 f_equal. unfold update_body, synthesize, open_presentation.
    subst original_file filename.
    destruct (dict_get fields "original_file") as [v|] eqn:Hof; simpl.
    + rewrite bind_assoc.
      destruct (Hfile v eq_refl) as [-> | [s ->]]; [done|].
      by rewrite update_mode_str, selects_update_str.
    + by rewrite bind_assoc.
  - unfold filename. by intros ->.
Qed.

Lemma mode_and_filename_witness :
  @update_powerpoint Fixture.env
    (JObj [("original_file", JStr "  "); ("update_instructions", JObj [])])
  = Returned (send_file (Package (mkPresentation [] Fixture.other_parts
                                    (slide_layouts Fixture.template)))
                        (JStr "presentation.pptx") pptx_mimetype)
  ∧ @update_powerpoint Fixture.env
      (JObj [("original_file", JStr "REVDSw=="); ("update_instructions", JObj [])])
    = Returned (send_file (Package Fixture.deck)
                          (JStr "presentation.pptx") pptx_mimetype)
  ∧ @update_powerpoint Fixture.env
      (JObj [("original_file", JStr "null"); ("update_instructions", JObj [])])
    = Returned (send_file (Package (mkPresentation [] Fixture.other_parts
                                      (slide_layouts Fixture.template)))
                          (JStr "presentation.pptx") pptx_mimetype).
Proof.
  split; [|split].
  - rewrite (proj1 (proj2 (@mode_and_filename Fixture.env
               [("original_file", JStr "  "); ("update_instructions", JObj [])]
               (JObj []) eq_refl
               (λ v Hv, or_intror (ex_intro _ "  "
                          (f_equal (default JNull) (eq_sym Hv))))))).
    vm_compute. reflexivity.
  - rewrite (proj1 (proj2 (@mode_and_filename Fixture.env
               [("original_file", JStr "REVDSw=="); ("update_instructions", JObj [])]
               (JObj []) eq_refl
               (λ v Hv, or_intror (ex_intro _ "REVDSw=="
                          (f_equal (default JNull) (eq_sym Hv))))))).
    vm_compute. reflexivity.
  - rewrite (proj1 (proj2 (@mode_and_filename Fixture.env
               [("original_file", JStr "null"); ("update_instructions", JObj [])]
               (JObj []) eq_refl
               (λ v Hv, or_intror (ex_intro _ "null"
                          (f_equal (default JNull) (eq_sym Hv))))))).
    vm_compute. reflexivity.
Defined.

(** C7 as stated fails at the text null: the field is present, is not
    null and is not blank, and the handler runs create mode, returning a
    fresh document without asking the decoder.  It also fails at a number:
    the field is present, not null and not blank, and the mode test itself
    raises on [.strip()], so that neither mode is run. *)
Lemma mode_and_filename_counterexample :
  (present_non_null_non_blank (Some (JStr "null")) = true
   ∧ update_mode (JStr "null") = Ok false
   ∧ @open_presentation Fixture.env (JStr "null") = @create_presentation Fixture.env
   ∧ @update_powerpoint Fixture.env
       (JObj [("original_file", JStr "null"); ("update_instructions", JObj [])])
     = Returned (send_file (Package (mkPresentation [] Fixture.other_parts
                                       (slide_layouts Fixture.template)))
                           (JStr "presentation.pptx") pptx_mimetype)
   ∧ update_mode (JStr "null")
     ≠ Ok (present_non_null_non_blank (Some (JStr "null"))))
  ∧ (present_non_null_non_blank (Some (JNum 5)) = true
     ∧ update_mode (JNum 5) = Raise (AttributeError "int" "strip")
     ∧ @update_powerpoint Fixture.env
         (JObj [("original_file", JNum 5); ("update_instructions", JObj [])])
       = Returned (jsonify
           (JObj [("error", JStr "'int' object has no attribute 'strip'")]) 500)).
Proof.
  split.
  - repeat split; try (vm_compute; reflexivity). by vm_compute.
  - repeat split; vm_compute; reflexivity.
Qed.

(** ** Content lines *)

Lemma str_items_strs (i : nat) (l : list string) :
  str_items i (map JStr l) = Ok l.
Proof.
  revert i. induction l as [|s l IH]; intros i; simpl; [done|].
  by rewrite IH.
Qed.

Lemma py_join_str_list (sep : string) (l : list string) :
  py_join sep (str_list l) = Ok (str_join sep l).
Proof. unfold py_join, str_list. simpl. by rewrite str_items_strs. Qed.

Lemma truthy_str_list (l : list string) :
  truthy (str_list l) = negb (bool_decide (l = [])).
Proof. by destruct l. Qed.

Lemma present_and_truthy_str_list fields k (field : option (list string)) :
  dict_get fields k = str_list <$> field →
  present_and_truthy k (JObj fields)
    = Ok (match field with Some (_ :: _) => true | _ => false end).
Proof.
  intros Hk. unfold present_and_truthy. simpl. rewrite Hk.
  by destruct field as [[|x l]|].
Qed.

Lemma content_lines_spec fields (bullets content : option (list string)) :
  dict_get fields "bullets" = str_list <$> bullets →
  dict_get fields "content" = str_list <$> content →
  content_lines (JObj fields) = Ok (str_list (spec_content_lines bullets content)).
Proof.
  intros Hb Hc. unfold content_lines.
  rewrite (present_and_truthy_str_list _ _ _ Hb). simpl.
  destruct bullets as [[|b bs]|]; simpl.
  - rewrite (present_and_truthy_str_list _ _ _ Hc). simpl.
    destruct content as [[|c cs]|]; simpl; try done. by rewrite Hc.
  - by rewrite Hb.
  - rewrite (present_and_truthy_str_list _ _ _ Hc). simpl.
    destruct content as [[|c cs]|]; simpl; try done. by rewrite Hc.
Qed.

(** Writing a text leaves every placeholder where it is. *)
Lemma list_find_ph_alter idx pos s (shapes : list Shape) :
  list_find (λ sh, ph_idx sh = Some idx)
            (alter (λ sh, mkShape (ph_idx sh) (Some s)) pos shapes)
  = prod_map id (λ sh, if bool_decide (list_find (λ sh, ph_idx sh = Some idx) shapes
                                       = Some (pos, sh))
                       then mkShape (ph_idx sh) (Some s) else sh)
      <$> list_find (λ sh, ph_idx sh = Some idx) shapes.
Proof.
  unfold alter.
  revert pos. induction shapes as [|sh shapes IH]; intros pos; [done|].
  destruct pos as [|pos]; simpl.
  - case_decide as Hsh; simpl.
    + by case_bool_decide.
    + by destruct (list_find _ shapes) as [[p x]|].
  - case_decide as Hsh; simpl.
    + done.
    + rewrite IH. destruct (list_find _ shapes) as [[p x]|]; simpl; [|done].
      do 2 f_equal. repeat case_bool_decide; naive_solver.
Qed.

Lemma find_ph_write_text idx pos s slide p sh :
  find_ph idx slide = Some (p, sh) →
  find_ph idx (write_text pos s slide)
  = Some (p, if bool_decide (p = pos)
             then mkShape (ph_idx sh) (Some (escape s)) else sh).
Proof.
  unfold find_ph, write_text. simpl. intros Hfind.
  rewrite list_find_ph_alter, Hfind. simpl. do 2 f_equal.
  repeat case_bool_decide; naive_solver.
Qed.

(** A text without control characters to escape is written as it is. *)
Lemma escape_plain (s : string) : plain s = true → escape s = s.
Proof.
  induction s as [|c r IH]; simpl; [done|].
  intros [Hc Hr]%andb_true_iff. apply negb_true_iff in Hc. rewrite Hc.
  by rewrite IH.
Qed.

Lemma plain_app (s1 s2 : string) :
  plain (s1 +:+ s2) = plain s1 && plain s2.
Proof.
  induction s1 as [|c r IH]; simpl; [done|]. by rewrite IH, andb_assoc.
Qed.

(** Lines without such characters are joined into a text without them:
    the line feed between them is not escaped. *)
Lemma plain_str_join (lines : list string) :
  Forall (λ l, plain l = true) lines → plain (str_join LF lines) = true.
Proof.
  induction 1 as [|l lines Hl Hlines IH]; [done|].
  destruct lines as [|l' lines]; [done|].
  change (str_join LF (l :: l' :: lines))
    with (l +:+ LF +:+ str_join LF (l' :: lines)).
  by rewrite !plain_app, Hl, IH.
Qed.

Lemma content_lines_fill
    (fields : list (string * json)) (bullets content : option (list string))
    (slide : Slide) (pos : nat) :
  dict_get fields "bullets" = str_list <$> bullets →
  dict_get fields "content" = str_list <$> content →
  1 < placeholders_len slide →
  placeholders_getitem slide 1 = Ok pos →
  fill_content (JObj fields) slide
    = Ok (if bool_decide (spec_content_lines bullets content = []) then slide
          else write_text pos (str_join LF (spec_content_lines bullets content)) slide).
Proof.
  intros Hb Hc Hlen Hpos.
  unfold fill_content. case_bool_decide; [|done].
  rewrite Hpos. cbn [mbind result_bind].
  rewrite (content_lines_spec _ _ _ Hb Hc). cbn [mbind result_bind].
  rewrite truthy_str_list.
  case_bool_decide; cbn [negb]; [done|].
  by rewrite py_join_str_list.
Qed.




(** ** The extractor and object identity *)

(** Every proxy [slide.shapes.title] returns is a new object. *)
Lemma shapes_title_run (slide : Slide) (next : nat) :
  shapes_title slide next
  = match title_elm slide with
    | Some (_, elm) => Ok (Some (Proxy next elm), S next)
    | None => Ok (None, next)
    end.
Proof. unfold shapes_title. by destruct (title_elm slide) as [[pos elm]|]. Qed.

(** [shape is not slide.shapes.title] holds for every shape taken from the
    iteration, the title shape included: the proxy on the right is built
    after the one on the left. *)
Lemma is_not_title_always (slide : Slide) (shape : proxy) (next : nat) :
  obj_id shape < next →
  ∃ t next', shapes_title slide next = Ok (t, next') ∧ is_not shape t = true.
Proof.
  intros Hlt. rewrite shapes_title_run.
  destruct (title_elm slide) as [[pos elm]|]; eexists _, _; split; try done.
  simpl. apply negb_true_iff, Nat.eqb_neq. lia.
Qed.

(** The comprehension keeps the text of every shape with a text frame. *)
Lemma shape_texts_all (slide : Slide) (elms : list Shape) (next : nat) :
  ∃ next', shape_texts slide elms next = Ok (omap text_frame elms, next').
Proof.
  revert next. induction elms as [|elm elms IH]; intros next; simpl.
  - by eexists.
  - unfold mbind, Obj_bind, shape_factory, has_text_frame, shape_text. simpl.
    destruct (text_frame elm) as [t|] eqn:Ht; simpl.
    + destruct (is_not_title_always slide (Proxy next elm) (S next))
        as (q & next1 & -> & ->); [simpl; lia|].
      simpl.
      destruct (IH next1) as [next2 ->]. by eexists.
    + destruct (IH (S next)) as [next2 ->]. by eexists.
Qed.

(** So the text of the title shape is in the content list. *)
Lemma title_text_kept (slide : Slide) (next : nat) pos sh t :
  title_elm slide = Some (pos, sh) →
  shape_text sh = Ok t →
  ∃ texts next',
    shape_texts slide (spTree slide) next = Ok (texts, next') ∧ t ∈ texts.
Proof.
  intros (Hpos & _)%list_find_Some Ht.
  destruct (shape_texts_all slide (spTree slide) next) as [next' ->].
  eexists _, _. split; [done|].
  apply list_elem_of_omap. exists sh. split.
  - apply list_elem_of_lookup. by exists pos.
  - unfold shape_text in Ht. by destruct (text_frame sh) as [t'|]; simplify_eq.
Qed.

Lemma slide_title_run (slide : Slide) (next : nat) :
  ∃ next',
    slide_title slide next
    = match title_elm slide with
      | Some (_, elm) => match shape_text elm with
                         | Ok t => Ok (t, next')
                         | Raise e => Raise e
                         end
      | None => Ok (EmptyString, next')
      end.
Proof.
  unfold slide_title, mbind, Obj_bind. rewrite shapes_title_run.
  destruct (title_elm slide) as [[pos elm]|] eqn:Htitle.
  - rewrite shapes_title_run, Htitle. unfold lift. simpl.
    exists (S (S next)). by destruct (shape_text elm).
  - by exists next.
Qed.

(** C2, at a deck of one slide with a title, a body and a picture: the
    title's text is the first entry of the slide's content list. *)
Theorem extract_title_in_content :
  @extract_powerpoint Fixture.env (JObj [("file_data", JStr "REVDSw==")])
  = Returned (jsonify
      (JObj [("slides",
              JArr [JObj [("slide_number", JNum 1);
                          ("title", JStr "Agenda");
                          ("content", JArr [JStr "Agenda"; JStr "First item"])]])])
      200).
Proof. vm_compute. reflexivity. Qed.

(** ** Relationship ids *)

Lemma next_rId_from_fresh (rels : gmap string Part) (n : nat) (r : string) :
  next_rId_from rels n = Ok r → rels !! r = None.
Proof.
  induction n as [|n IH]; [done|].
  cbn [next_rId_from]. case_bool_decide as Hin; [done|].
  intros [= <-]. by apply eq_None_not_Some.
Qed.

Lemma next_rId_fresh (rels : gmap string Part) (r : string) :
  next_rId rels = Ok r → rels !! r = None.
Proof. apply next_rId_from_fresh. Qed.

Lemma next_rId_from_Raise (rels : gmap string Part) (n : nat) (e : exn) :
  next_rId_from rels n = Raise e →
  ∀ k : nat, (1 ≤ k ≤ n)%nat → is_Some (rels !! ("rId" +:+ pretty k)).
Proof.
  induction n as [|n IH]; intros Hraise k Hk; [lia|].
  cbn [next_rId_from] in Hraise. case_bool_decide as Hin; [|done].
  destruct (decide (k = S n)) as [-> | Hne]; [done|].
  apply IH; [done | lia].
Qed.

(** The candidates cannot all be taken: the search for an rId succeeds. *)
Lemma next_rId_total (rels : gmap string Part) : ∃ r, next_rId rels = Ok r.
Proof.
  unfold next_rId. destruct (next_rId_from rels (size rels + 1)) as [r|e] eqn:Hnext;
    [by exists r|].
  exfalso.
  pose proof (next_rId_from_Raise _ _ _ Hnext) as Htaken.
  set (candidates := (λ k : nat, "rId" +:+ pretty k) <$> seq 1 (size rels + 1)).
  assert (NoDup candidates) as Hnodup.
  { apply NoDup_fmap_2; [|apply NoDup_seq].
    intros j k Hjk. by apply (inj (String.app "rId")), (inj pretty) in Hjk. }
  assert (list_to_set (C := gset string) candidates ⊆ dom rels) as Hsub.
  { intros x [k [-> Hk%elem_of_seq]]%elem_of_list_to_set%list_elem_of_fmap.
    apply elem_of_dom, Htaken. lia. }
  apply subseteq_size in Hsub.
  rewrite size_list_to_set, size_dom in Hsub by done.
  unfold candidates in Hsub. rewrite length_fmap, length_seq in Hsub. lia.
Qed.

(** ** Appending the outline *)

Lemma mapM_Ok {A B} (f : A → result B) (l : list A) (k : list B) :
  mapM f l = Ok k ↔ Forall2 (λ x y, f x = Ok y) l k.
Proof.
  revert k. induction l as [|x l IH]; intros k; simpl.
  - split; [intros [= <-]; constructor | by inversion 1].
  - split.
    + intros Hm. inv_bind Hm. rename a into y. inv_bind Hm.
      injection Hm as <-. constructor; [done | by apply IH].
    + inversion 1 as [|? y ? k' Hy Hk]; subst.
      rewrite Hy. simpl. apply IH in Hk. by rewrite Hk.
Qed.

Lemma related_slide_Ok (prs : Presentation) (rId : string) (s : Slide) :
  related_slide prs rId = Ok s ↔ rels prs !! rId = Some (SlidePart s).
Proof.
  unfold related_slide. destruct (rels prs !! rId) as [[s'|n]|]; naive_solver.
Qed.

Lemma select_layout_ext (prs prs' : Presentation) :
  slide_layouts prs' = slide_layouts prs → select_layout prs' = select_layout prs.
Proof. unfold select_layout, layouts_getitem. by intros ->. Qed.

(** One pass of the loop body: the slide list grows by one fresh rId, under
    which the slide of the outline entry is held. *)
Lemma add_outline_slide_Ok (slide_data : json) (prs prs' : Presentation) :
  add_outline_slide slide_data prs = Ok prs' →
  ∃ layout rId slide,
    select_layout prs = Ok layout ∧
    rels prs !! rId = None ∧
    outline_slide layout slide_data = Ok slide ∧
    prs' = mkPresentation (sldIdLst prs ++ [rId])
                          (<[rId := SlidePart slide]> (rels prs))
                          (slide_layouts prs).
Proof.
  unfold add_outline_slide. intros Hadd.
  inv_bind Hadd. clear Ha. inv_bind Hadd. rename a0 into layout, Ha into Hlayout.
  inv_bind Hadd. destruct a0 as [rId prs1]. unfold add_slide in Ha.
  inv_bind Ha. rename a0 into r, Ha0 into Hfresh. injection Ha as -> <-.
  apply next_rId_fresh in Hfresh.
  unfold related_slide in Hadd. simpl in Hadd. rewrite lookup_insert_eq in Hadd.
  simpl in Hadd. inv_bind Hadd. rename a0 into slide1, Ha into Htitle.
  inv_bind Hadd. rename a0 into slide, Ha into Hcontent. injection Hadd as <-.
  exists layout, rId, slide. repeat split; try done.
  - unfold outline_slide. rewrite Htitle. simpl. done.
  - unfold store_slide. simpl. by rewrite insert_insert_eq.
Qed.

(** The loop: existing relationships and the layout gallery are untouched,
    the slide list grows at its end by one rId per outline entry, and each
    new rId holds the slide of its entry. *)
Lemma for_each_add_outline_slide (entries : list json) (prs prs' : Presentation) :
  for_each add_outline_slide entries prs = Ok prs' →
  ∃ rIds news,
    sldIdLst prs' = (sldIdLst prs ++ rIds)%list ∧
    slide_layouts prs' = slide_layouts prs ∧
    (∀ r, is_Some (rels prs !! r) → rels prs' !! r = rels prs !! r) ∧
    Forall2 (λ r s, rels prs' !! r = Some (SlidePart s)) rIds news ∧
    Forall2 (λ e s, ∃ layout, select_layout prs = Ok layout ∧
                              outline_slide layout e = Ok s) entries news.
Proof.
  revert prs. induction entries as [|e entries IH]; intros prs Hloop.
  - injection Hloop as <-. exists [], []. rewrite app_nil_r.
    repeat split; by try constructor.
  - simpl in Hloop. inv_bind Hloop. rename a into prs1.
    apply add_outline_slide_Ok in Ha as (layout & rId & slide & Hl & Hfresh & Hs & ->).
    destruct (IH _ Hloop) as (rIds & news & Hids & Hlay & Hframe & Hnew & Hbuilt).
    simpl in *.
    exists (rId :: rIds), (slide :: news). repeat split.
    + by rewrite Hids, <- app_assoc.
    + done.
    + intros r Hr. rewrite Hframe.
      * apply lookup_insert_ne. intros ->. rewrite Hfresh in Hr. by destruct Hr.
      * rewrite lookup_insert_ne; [done|].
        intros ->. rewrite Hfresh in Hr. by destruct Hr.
    + constructor; [|done].
      rewrite Hframe; by rewrite lookup_insert_eq.
    + constructor; [by exists layout|].
      eapply Forall2_impl; [exact Hbuilt|].
      intros e' s' (layout' & Hl' & Hs'). exists layout'. split; [|done].
      by rewrite <- Hl'.
Qed.

Lemma add_outline_entries (update_instructions : json) (prs : Presentation) :
  add_outline update_instructions prs
  = entries ← outline_entries update_instructions;
    for_each add_outline_slide entries prs.
Proof.
  unfold add_outline, outline_entries.
  destruct (py_contains "slides" update_instructions) as [[|]|e]; simpl; try done.
  destruct (py_getitem update_instructions "slides") as [outline|e]; simpl; [|done].
  by destruct (py_len outline).
Qed.

Lemma slides_Ok (prs : Presentation) (ss : list Slide) :
  slides prs = Ok ss
  ↔ Forall2 (λ r s, rels prs !! r = Some (SlidePart s)) (sldIdLst prs) ss.
Proof.
  unfold slides. rewrite mapM_Ok.
  split; intros Hall; (eapply Forall2_impl; [exact Hall|]);
    intros r s; apply related_slide_Ok.
Qed.

(** Appending an outline to a document whose slides all resolve: the old
    slides come first and are the same, one new slide per entry follows. *)
Lemma add_outline_slides (update_instructions : json)
    (prs prs' : Presentation) (old : list Slide) :
  slides prs = Ok old →
  add_outline update_instructions prs = Ok prs' →
  ∃ entries news,
    outline_entries update_instructions = Ok entries ∧
    slide_layouts prs' = slide_layouts prs ∧
    slides prs' = Ok (old ++ news) ∧
    Forall2 (λ e s, ∃ layout, select_layout prs = Ok layout ∧
                              outline_slide layout e = Ok s) entries news.
Proof.
  intros Hold Hadd. rewrite add_outline_entries in Hadd.
  inv_bind Hadd. rename a into entries, Ha into Hentries.
  apply for_each_add_outline_slide in Hadd
    as (rIds & news & Hids & Hlay & Hframe & Hnew & Hbuilt).
  exists entries, news. repeat split; try done.
  apply slides_Ok. rewrite Hids. apply Forall2_app; [|done].
  apply slides_Ok in Hold.
  eapply Forall2_impl; [exact Hold|].
  intros r s' Hr. simpl. rewrite Hframe; [done|]. by rewrite Hr.
Qed.

(** ** Update mode *)

(** C6: in update mode the slides of the supplied document are the first
    slides of the document returned, unchanged and in their order; the
    slides made from the outline, one per entry, come after them. *)
Theorem update_preserves_slides `{Environment}
    (original_file update_instructions filename : json)
    (supplied : Presentation) (old : list Slide) (resp : response) :
  update_mode original_file = Ok true →
  b64decode original_file = Ok (Package supplied) →
  slides supplied = Ok old →
  update_body original_file update_instructions filename = Ok resp →
  ∃ prs entries news,
    resp = send_file (Package prs) filename pptx_mimetype ∧
    outline_entries update_instructions = Ok entries ∧
    slides prs = Ok (old ++ news) ∧
    Forall2 (λ e s, ∃ layout, select_layout supplied = Ok layout ∧
                              outline_slide layout e = Ok s) entries news.
Proof.
  intros Hmode Hdec Hold Hbody.
  unfold update_body, synthesize, open_presentation in Hbody.
  rewrite Hmode in Hbody. cbn [mbind result_bind] in Hbody.
  rewrite Hdec in Hbody. cbn [mbind result_bind Presentation_open] in Hbody.
  inv_bind Hbody. rename a into prs. apply flask_send_file_Ok in Hbody as ->.
  destruct (add_outline_slides _ _ _ _ Hold Ha)
    as (entries & news & Hentries & _ & Hslides & Hbuilt).
  by exists prs, entries, news.
Qed.

Lemma update_preserves_slides_witness :
  ∃ prs news,
    @update_body Fixture.env (JStr "REVDSw==") Fixture.intro_outline
                 (JStr "deck.pptx")
      = Ok (send_file (Package prs) (JStr "deck.pptx") pptx_mimetype) ∧
    slides prs = Ok ([Fixture.agenda_slide] ++ news) ∧
    length news = 1.
Proof.
  destruct (@update_preserves_slides Fixture.env
              (JStr "REVDSw==") Fixture.intro_outline (JStr "deck.pptx")
              Fixture.deck [Fixture.agenda_slide]
              (send_file (Package Fixture.updated_deck)
                         (JStr "deck.pptx") pptx_mimetype))
    as (prs & entries & news & Hresp & Hentries & Hslides & Hbuilt);
    [reflexivity | reflexivity | reflexivity | vm_compute; reflexivity |].
  exists prs, news. split; [|split].
  - rewrite <- Hresp. vm_compute. reflexivity.
  - exact Hslides.
  - apply Forall2_length in Hbuilt. rewrite <- Hbuilt.
    vm_compute in Hentries. by injection Hentries as <-.
Defined.

(** ** Create mode *)

(** A slide id that is the only one is referenced once: its relationship
    is dropped. *)
Lemma drop_rel_single (r : string) (rs : gmap string Part) layouts :
  drop_rel r (mkPresentation [r] rs layouts)
  = match rs !! r with
    | Some _ => Ok (mkPresentation [r] (delete r rs) layouts)
    | None => Raise (KeyError r)
    end.
Proof.
  unfold drop_rel, rel_ref_count. simpl.
  case_bool_decide as Hcount; [done|].
  exfalso. apply Hcount.
  pose proof (length_filter (λ r0, r0 = r) [r]) as Hle. simpl in Hle. lia.
Qed.

(** With a template of at most one slide, what [create_presentation] gives
    has no slide: the slide-list entry is deleted, the relationship of the
    default slide is dropped, and nothing else is touched. *)
Lemma create_presentation_Ok `{Environment} (prs : Presentation) :
  length (sldIdLst default_template) ≤ 1 →
  create_presentation = Ok prs →
  sldIdLst prs = [] ∧
  slide_layouts prs = slide_layouts default_template ∧
  (∀ r, r ∈ sldIdLst default_template → rels prs !! r = None) ∧
  (∀ r, r ∉ sldIdLst default_template → rels prs !! r = rels default_template !! r).
Proof.
  unfold create_presentation. intros Hlen.
  destruct default_template as [ids rs layouts]. simpl in *.
  destruct ids as [|r [|r' ids]]; simpl in *; [| |lia].
  - intros [= <-]. simpl. repeat split; try done. by intros r ?%elem_of_nil.
  - rewrite drop_rel_single. simpl.
    destruct (rs !! r) as [p|] eqn:Hr; simpl; [|done].
    intros [= <-]. simpl. repeat split; try done.
    + intros r' ->%list_elem_of_singleton. apply lookup_delete_eq.
    + intros r' Hr'. apply lookup_delete_ne. intros ->. apply Hr'. by left.
Qed.

(** It succeeds when the default slide, if any, is a related part. *)
Lemma create_presentation_total `{Environment} :
  length (sldIdLst default_template) ≤ 1 →
  (∀ r, r ∈ sldIdLst default_template → is_Some (rels default_template !! r)) →
  ∃ prs, create_presentation = Ok prs.
Proof.
  unfold create_presentation. intros Hlen Hrel.
  destruct default_template as [ids rs layouts]. simpl in *.
  destruct ids as [|r [|r' ids]]; simpl in *; [by eexists| |lia].
  rewrite drop_rel_single. simpl.
  destruct (Hrel r) as [p ->]; [by left|]. by eexists.
Qed.

(** C5: in create mode, with a template of at most one (default) slide and
    an outline that is not empty, the default slide is removed before
    anything is appended (no slide-list entry is left, and its relationship
    is dropped), and the slides of the document returned are the slides made
    from the outline entries, the first from the first entry. *)
Theorem create_first_slide `{Environment}
    (original_file update_instructions filename : json)
    (e : json) (es : list json) (resp : response) :
  update_mode original_file = Ok false →
  length (sldIdLst default_template) ≤ 1 →
  outline_entries update_instructions = Ok (e :: es) →
  update_body original_file update_instructions filename = Ok resp →
  ∃ empty prs layout first rest,
    create_presentation = Ok empty ∧
    sldIdLst empty = [] ∧
    (∀ r, r ∈ sldIdLst default_template → rels empty !! r = None) ∧
    add_outline update_instructions empty = Ok prs ∧
    resp = send_file (Package prs) filename pptx_mimetype ∧
    select_layout default_template = Ok layout ∧
    slides prs = Ok (first :: rest) ∧
    outline_slide layout e = Ok first ∧
    Forall2 (λ e' s, outline_slide layout e' = Ok s) es rest.
Proof.
  intros Hmode Hlen Hentries Hbody.
  unfold update_body, synthesize, open_presentation in Hbody.
  rewrite Hmode in Hbody. cbn [mbind result_bind] in Hbody.
  inv_bind Hbody. rename a into prs. apply flask_send_file_Ok in Hbody as ->.
  inv_bind Ha. rename a into empty, Ha0 into Hcreate.
  destruct (create_presentation_Ok _ Hlen Hcreate) as (Hids & Hlay & Hgone & _).
  assert (slides empty = Ok []) as Hnone.
  { apply slides_Ok. rewrite Hids. constructor. }
  destruct (add_outline_slides _ _ _ _ Hnone Ha)
    as (entries & news & Hentries' & _ & Hslides & Hbuilt).
  rewrite Hentries in Hentries'. injection Hentries' as <-.
  inversion Hbuilt as [|? first ? rest (layout & Hl & Hfirst) Hrest]; subst.
  exists empty, prs, layout, first, rest. repeat split; try done.
  - by rewrite <- (select_layout_ext _ _ Hlay).
  - eapply Forall2_impl; [exact Hrest|].
    intros e' s (layout' & Hl' & Hs). congruence.
Qed.

Lemma create_first_slide_witness :
  ∃ prs rest,
    @update_body Fixture.env JNull Fixture.intro_outline (JStr "new.pptx")
      = Ok (send_file (Package prs) (JStr "new.pptx") pptx_mimetype) ∧
    slides prs = Ok (Fixture.intro_slide :: rest) ∧
    rest = [].
Proof.
  destruct (@create_first_slide Fixture.env
              JNull Fixture.intro_outline (JStr "new.pptx")
              (JObj [("title", JStr "Intro");
                     ("bullets", JArr [JStr "Point 1"; JStr "Point 2"])]) []
              (send_file (Package Fixture.intro_deck)
                         (JStr "new.pptx") pptx_mimetype))
    as (empty & prs & layout & first & rest & _ & _ & _ & _
        & Hresp & Hlayout & Hslides & Hfirst & Hrest);
    [reflexivity | vm_compute; lia | reflexivity | vm_compute; reflexivity |].
  exists prs, rest. split; [|split].
  - rewrite <- Hresp. vm_compute. reflexivity.
  - vm_compute in Hlayout. injection Hlayout as <-.
    vm_compute in Hfirst. injection Hfirst as <-. exact Hslides.
  - by inversion Hrest.
Defined.

(** ** An outline without slides *)




(** ** Round trip of the titles *)

(** Two placeholders with different [idx] sit at different positions. *)
Lemma find_ph_pos_ne (slide : Slide) i j p q x y :
  i ≠ j → find_ph i slide = Some (p, x) → find_ph j slide = Some (q, y) → p ≠ q.
Proof.
  unfold find_ph. intros Hij (Hp & Hx & _)%list_find_Some (Hq & Hy & _)%list_find_Some ->.
  congruence.
Qed.

(** Filling the content region leaves the title region and its text. *)
Lemma fill_content_title (slide_data : json) (slide slide' : Slide) pos sh :
  fill_content slide_data slide = Ok slide' →
  title_elm slide = Some (pos, sh) →
  title_elm slide' = Some (pos, sh).
Proof.
  unfold fill_content, title_elm. intros Hfill Htitle.
  case_bool_decide; [|by injection Hfill as <-].
  inv_bind Hfill. rename a into pos1, Ha into Hpos1.
  inv_bind Hfill. rename a into lines.
  destruct (truthy lines); [|by injection Hfill as <-].
  inv_bind Hfill. injection Hfill as <-.
  rewrite (find_ph_write_text _ _ _ _ _ _ Htitle).
  unfold placeholders_getitem in Hpos1.
  destruct (find_ph 1 slide) as [[q y]|] eqn:Hq; [|done]. injection Hpos1 as ->.
  case_bool_decide as Heq; [|done].
  by destruct (find_ph_pos_ne slide 0 1 pos pos1 sh y).
Qed.

(** On a layout with a title region, the slide of an entry that carries a
    title has that title, escaped, as the text of its title region. *)
Lemma outline_slide_title (layout : SlideLayout)
    (fields : list (string * json)) (t : string) (slide : Slide) :
  dict_get fields "title" = Some (JStr t) →
  is_Some (title_elm (new_slide layout)) →
  outline_slide layout (JObj fields) = Ok slide →
  ∃ pos sh, title_elm slide = Some (pos, sh) ∧ shape_text sh = Ok (escape t).
Proof.
  intros Ht [[pos sh0] Htitle] Hslide. unfold outline_slide in Hslide.
  inv_bind Hslide. rename a into slide1, Ha into Hfill.
  unfold fill_title in Hfill. simpl in Hfill. rewrite Ht in Hfill.
  rewrite bool_decide_eq_true_2 in Hfill by done.
  simpl in Hfill. rewrite Htitle in Hfill. simpl in Hfill.
  injection Hfill as <-.
  exists pos, (mkShape (ph_idx sh0) (Some (escape t))). split; [|done].
  eapply fill_content_title; [exact Hslide|].
  unfold title_elm in *. rewrite (find_ph_write_text _ _ _ _ _ _ Htitle).
  by case_bool_decide.
Qed.

(** The entry the extractor makes for a slide whose title region has text
    [t] has the title [t]. *)
Lemma slide_content_title (i : nat) (slide : Slide) (next : nat) pos sh t :
  title_elm slide = Some (pos, sh) →
  shape_text sh = Ok t →
  ∃ c next', slide_content i slide next = Ok (c, next') ∧
             py_getitem c "title" = Ok (JStr t).
Proof.
  intros Htitle Htext. unfold slide_content, mbind, Obj_bind.
  destruct (slide_title_run slide next) as [next1 ->].
  rewrite Htitle, Htext.
  destruct (shape_texts_all slide (spTree slide) next1) as [next2 ->].
  by eexists _, _.
Qed.

Lemma slides_content_titles (prs : Presentation) (rIds : list string)
    (ss : list Slide) (titles : list string) (i next : nat) :
  Forall2 (λ r s, rels prs !! r = Some (SlidePart s)) rIds ss →
  Forall2 (λ s t, ∃ pos sh, title_elm s = Some (pos, sh) ∧ shape_text sh = Ok t)
          ss titles →
  ∃ cs next', slides_content prs i rIds next = Ok (cs, next') ∧
              Forall2 (λ c t, py_getitem c "title" = Ok (JStr t)) cs titles.
Proof.
  intros Hrel. revert titles i next.
  induction Hrel as [|r s rIds ss Hr Hrel IH]; intros titles i next Htitles.
  - inversion Htitles; subst. exists [], next. split; [done | constructor].
  - inversion Htitles as [|? t ? titles' (pos & sh & Htitle & Htext) Hrest]; subst.
    cbn [slides_content]. unfold mbind, Obj_bind, lift, related_slide.
    rewrite Hr.
    destruct (slide_content_title i s next pos sh t Htitle Htext)
      as (c & next1 & -> & Hc).
    destruct (IH titles' (S i) next1 Hrest) as (cs & next2 & -> & Hcs).
    exists (c :: cs), next2. split; [done | by constructor].
Qed.

(** What holds of the escaped texts holds of the texts themselves when
    there is nothing to escape in them. *)
Lemma Forall2_escape_plain {A B} (R : A → string → Prop) (g : B → string)
    (xs : list A) (ys : list B) :
  Forall2 (λ x y, R x (escape (g y))) xs ys →
  Forall (λ y, plain (g y) = true) ys →
  Forall2 (λ x y, R x (g y)) xs ys.
Proof.
  induction 1 as [|x y xs ys Hxy _ IH]; intros Hplain; [constructor|].
  apply Forall_cons in Hplain as [Hy Hys].
  constructor; [|by apply IH]. by rewrite <- (escape_plain _ Hy).
Qed.

(** The titles of the slides built from entries that carry a title. *)
Lemma built_titles (prs : Presentation) (entries : list json) (news : list Slide)
    (titles : list string) :
  (∀ layout, select_layout prs = Ok layout →
             is_Some (title_elm (new_slide layout))) →
  Forall2 (λ e s, ∃ layout, select_layout prs = Ok layout ∧
                            outline_slide layout e = Ok s) entries news →
  Forall2 (λ e t, ∃ f, e = JObj f ∧ dict_get f "title" = Some (JStr t))
          entries titles →
  Forall2 (λ s t, ∃ pos sh, title_elm s = Some (pos, sh)
                            ∧ shape_text sh = Ok (escape t)) news titles.
Proof.
  intros Hlayout Hbuilt. revert titles.
  induction Hbuilt as [|e s entries news (layout & Hl & Hs) _ IH];
    intros titles Htitles; inversion Htitles as [|? t ? ? (f & -> & Ht)]; subst;
    constructor; [|by apply IH].
  eapply outline_slide_title; [exact Ht | by apply Hlayout | exact Hs].
Qed.

(** C8, amended: in create mode, on a template of at most one slide whose
    selected layout has a title region, and for an outline whose entries
    all carry a title: when the synthesizer returns a file and that file is
    what the extractor is sent, the extractor returns one entry per outline
    entry, and their titles are the titles of the outline, in order, with
    every control character other than tab, line feed and vertical tab
    escaped: the titles of the outline themselves when they hold no such
    character. *)
Theorem roundtrip_titles `{Environment}
    (req : list (string * json)) (update_instructions : json)
    (entries : list json) (titles : list string)
    (file_stream : bytes) (name : json) (mimetype : string)
    (fields : list (string * json)) (v : json) :
  dict_get req "update_instructions" = Some update_instructions →
  update_mode (default JNull (dict_get req "original_file")) = Ok false →
  length (sldIdLst default_template) ≤ 1 →
  (∀ layout, select_layout default_template = Ok layout →
             is_Some (title_elm (new_slide layout))) →
  outline_entries update_instructions = Ok entries →
  Forall2 (λ e t, ∃ f, e = JObj f ∧ dict_get f "title" = Some (JStr t))
          entries titles →
  update_powerpoint (JObj req) = Returned (send_file file_stream name mimetype) →
  dict_get fields "file_data" = Some v →
  b64decode v = Ok file_stream →
  ∃ cs,
    extract_powerpoint (JObj fields)
      = Returned (jsonify (JObj [("slides", JArr cs)]) 200) ∧
    Forall2 (λ c t, py_getitem c "title" = Ok (JStr (escape t))) cs titles ∧
    (Forall (λ t, plain t = true) titles →
     Forall2 (λ c t, py_getitem c "title" = Ok (JStr t)) cs titles).
Proof.
  intros Hui Hmode Hlen Hlayout Hentries Htitles Hsynth Hv Hdec.
  unfold update_powerpoint in Hsynth. simpl in Hsynth. rewrite Hui in Hsynth.
  simpl in Hsynth. injection Hsynth as Hbody.
  apply try_except_send_file in Hbody.
  unfold update_body, synthesize, open_presentation in Hbody.
  rewrite Hmode in Hbody. cbn [mbind result_bind] in Hbody.
  inv_bind Hbody. rename a into prs.
  apply flask_send_file_Ok in Hbody. injection Hbody as -> _ _.
  inv_bind Ha. rename a into empty, Ha0 into Hcreate.
  destruct (create_presentation_Ok _ Hlen Hcreate) as (Hids & Hlay & _).
  rewrite add_outline_entries, Hentries in Ha. cbn [mbind result_bind] in Ha.
  apply for_each_add_outline_slide in Ha
    as (rIds & news & Hids' & _ & _ & Hnew & Hbuilt).
  rewrite Hids in Hids'. simpl in Hids'.
  assert (Forall2 (λ s t, ∃ pos sh, title_elm s = Some (pos, sh)
                                   ∧ shape_text sh = Ok t)
                  news (escape <$> titles)) as Hnews.
  { apply Forall2_fmap_r. apply (built_titles empty entries); [|done..].
    intros layout Hl. apply Hlayout. by rewrite <- (select_layout_ext _ _ Hlay). }
  destruct (slides_content_titles prs rIds news _ 0 0 Hnew Hnews)
    as (cs & next' & Hcs & Hall).
  apply Forall2_fmap_r in Hall.
  exists cs. split; [|split; [done|]].
  - unfold extract_powerpoint. simpl. rewrite Hv. simpl. rewrite Hdec.
    unfold extract_body, save, Presentation_open. cbn [mbind result_bind].
    unfold run_from. by rewrite Hids', Hcs.
  - apply (Forall2_escape_plain
             (λ c s, py_getitem c "title" = Ok (JStr s)) id cs titles Hall).
Qed.

Lemma roundtrip_titles_witness :
  ∃ cs,
    @extract_powerpoint Fixture.env (JObj [("file_data", JStr "SU5UUk8=")])
      = Returned (jsonify (JObj [("slides", JArr cs)]) 200) ∧
    Forall2 (λ c t, py_getitem c "title" = Ok (JStr t)) cs ["Intro"].
Proof.
  destruct (@roundtrip_titles Fixture.env
           [("update_instructions", Fixture.intro_outline)] Fixture.intro_outline
           [JObj [("title", JStr "Intro");
                  ("bullets", JArr [JStr "Point 1"; JStr "Point 2"])]]
           ["Intro"] (Package Fixture.intro_deck) (JStr "presentation.pptx")
           pptx_mimetype [("file_data", JStr "SU5UUk8=")] (JStr "SU5UUk8="))
    as (cs & Hextract & _ & Hplain).
  - reflexivity.
  - reflexivity.
  - vm_compute. lia.
  - intros layout Hl. vm_compute in Hl. injection Hl as <-.
    vm_compute. by eexists.
  - reflexivity.
  - repeat constructor. by eexists.
  - vm_compute. reflexivity.
  - reflexivity.
  - reflexivity.
  - exists cs. split; [exact Hextract|]. apply Hplain. by repeat constructor.
Defined.

(** C8 as stated fails for a title with a carriage return: the synthesizer
    returns a file for the outline, and the extractor, sent that file,
    returns the title with the carriage return escaped. *)
Lemma roundtrip_titles_counterexample :
  outline_entries Fixture.return_outline
    = Ok [JObj [("title", JStr ("Q1" +:+ CR +:+ "Q2"))]]
  ∧ @update_powerpoint Fixture.env
      (JObj [("update_instructions", Fixture.return_outline)])
    = Returned (send_file (Package Fixture.return_deck)
                          (JStr "presentation.pptx") pptx_mimetype)
  ∧ @b64decode Fixture.env (JStr "UkVUVVJO") = Ok (Package Fixture.return_deck)
  ∧ @extract_powerpoint Fixture.env (JObj [("file_data", JStr "UkVUVVJO")])
    = Returned (jsonify
        (JObj [("slides",
                JArr [JObj [("slide_number", JNum 1);
                            ("title", JStr "Q1_x000D_Q2");
                            ("content", JArr [JStr "Q1_x000D_Q2";
                                              JStr EmptyString])]])])
        200)
  ∧ "Q1_x000D_Q2" ≠ "Q1" +:+ CR +:+ "Q2".
Proof. repeat split; try (vm_compute; reflexivity). by vm_compute. Qed.

(** ** Well-formed outlines are accepted *)

Lemma placeholders_len_write_text pos s slide :
  placeholders_len (write_text pos s slide) = placeholders_len slide.
Proof.
  unfold placeholders_len, write_text. simpl. unfold alter.
  revert pos. induction (spTree slide) as [|sh shapes IH]; intros pos; [done|].
  destruct pos as [|pos]; simpl.
  - rewrite !filter_cons. unfold is_placeholder at 1 3. simpl.
    by repeat case_decide.
  - rewrite !filter_cons. case_decide; simpl; by rewrite IH.
Qed.

Lemma find_ph_write_text_is_Some idx pos s slide :
  is_Some (find_ph idx slide) → is_Some (find_ph idx (write_text pos s slide)).
Proof.
  intros [[p sh] Hfind]. rewrite (find_ph_write_text _ _ _ _ _ _ Hfind). by eexists.
Qed.

Lemma fill_title_total fields (title : option string) (slide : Slide) :
  dict_get fields "title" = JStr <$> title →
  ∃ slide', fill_title (JObj fields) slide = Ok slide' ∧
            placeholders_len slide' = placeholders_len slide ∧
            (is_Some (find_ph 1 slide) → is_Some (find_ph 1 slide')).
Proof.
  intros Ht. unfold fill_title. simpl. rewrite Ht.
  destruct title as [t|]; simpl; [|by exists slide].
  destruct (title_elm slide) as [[pos sh]|]; simpl; [|by exists slide].
  exists (write_text pos t slide). split; [done|]. split.
  - apply placeholders_len_write_text.
  - apply find_ph_write_text_is_Some.
Qed.

Lemma fill_content_total fields (bullets content : option (list string)) slide :
  dict_get fields "bullets" = str_list <$> bullets →
  dict_get fields "content" = str_list <$> content →
  (1 < placeholders_len slide → is_Some (find_ph 1 slide)) →
  ∃ slide', fill_content (JObj fields) slide = Ok slide'.
Proof.
  intros Hb Hc Hregion.
  destruct (decide (1 < placeholders_len slide)) as [Hlen|Hlen].
  - destruct (Hregion Hlen) as [[pos sh] Hfind].
    assert (placeholders_getitem slide 1 = Ok pos) as Hpos.
    { unfold placeholders_getitem. by rewrite Hfind. }
    eexists. apply (content_lines_fill _ _ _ _ _ Hb Hc Hlen Hpos).
  - exists slide. unfold fill_content. by case_bool_decide.
Qed.

Lemma outline_slide_total (layout : SlideLayout) (e : json) :
  entry_ok e → layout_ok layout → ∃ slide, outline_slide layout e = Ok slide.
Proof.
  intros (fields & title & bullets & content & -> & Ht & Hb & Hc) Hlayout.
  unfold outline_slide.
  destruct (fill_title_total fields title (new_slide layout) Ht)
    as (slide1 & -> & Hlen & Hregion).
  cbn [mbind result_bind].
  apply (fill_content_total _ _ _ _ Hb Hc).
  rewrite Hlen. intros Hgt. by apply Hregion, Hlayout.
Qed.

Lemma add_outline_slide_total (e : json) (prs : Presentation) layout :
  entry_ok e → select_layout prs = Ok layout → layout_ok layout →
  ∃ prs', add_outline_slide e prs = Ok prs' ∧
          slide_layouts prs' = slide_layouts prs.
Proof.
  intros He Hselect Hlayout.
  destruct (outline_slide_total layout e He Hlayout) as [slide Hslide].
  destruct He as (fields & title & bullets & content & -> & _).
  unfold add_outline_slide. simpl. rewrite Hselect. simpl.
  unfold add_slide. destruct (next_rId_total (rels prs)) as [rId ->]. simpl.
  unfold related_slide. simpl. rewrite lookup_insert_eq. simpl.
  unfold outline_slide in Hslide. inv_bind Hslide. rewrite Ha. simpl.
  rewrite Hslide. simpl. by eexists.
Qed.

(** The loop accepts every outline of well-formed entries. *)
Lemma for_each_add_outline_slide_total (entries : list json) (prs : Presentation) layout :
  Forall entry_ok entries → select_layout prs = Ok layout → layout_ok layout →
  ∃ prs', for_each add_outline_slide entries prs = Ok prs'.
Proof.
  intros Hentries. revert prs.
  induction Hentries as [|e entries He _ IH]; intros prs Hselect Hlayout.
  - by exists prs.
  - destruct (add_outline_slide_total e prs layout He Hselect Hlayout)
      as (prs1 & Hadd & Hlay).
    simpl. rewrite Hadd. simpl. apply IH; [|done].
    by rewrite (select_layout_ext _ _ Hlay).
Qed.

(** In create mode, a request with an outline of well-formed entries gets
    a file, whenever the template's default slide is a related part, the
    layout the template selects has its content region, and the download
    name is a string without a line break. *)
Lemma create_request_accepted `{Environment}
    (original_file update_instructions filename : json)
    (entries : list json) (layout : SlideLayout) :
  update_mode original_file = Ok false →
  length (sldIdLst default_template) ≤ 1 →
  (∀ r, r ∈ sldIdLst default_template → is_Some (rels default_template !! r)) →
  select_layout default_template = Ok layout →
  layout_ok layout →
  outline_entries update_instructions = Ok entries →
  Forall entry_ok entries →
  accepted_name filename = true →
  ∃ prs, update_body original_file update_instructions filename
         = Ok (send_file (Package prs) filename pptx_mimetype).
Proof.
  intros Hmode Hlen Hrel Hselect Hlayout Hentries Hok Hname.
  destruct (create_presentation_total Hlen Hrel) as [empty Hcreate].
  destruct (create_presentation_Ok _ Hlen Hcreate) as (_ & Hlay & _).
  destruct (for_each_add_outline_slide_total entries empty layout Hok) as [prs Hloop];
    [by rewrite (select_layout_ext _ _ Hlay) | done |].
  exists prs. unfold update_body, synthesize, open_presentation.
  rewrite Hmode. cbn [mbind result_bind]. rewrite Hcreate. cbn [mbind result_bind].
  rewrite add_outline_entries, Hentries. cbn [mbind result_bind].
  rewrite Hloop. cbn [mbind result_bind]. by apply flask_send_file_accepted.
Qed.

(** * Further properties of the handlers *)

(** ** Request bodies that are not objects *)

(** X1: a body that is valid JSON but not an object (null, a boolean, a
    number, a string, a list) makes both handlers raise before their guard:
    [data['file_data']] is a [TypeError], [data.get] an [AttributeError]. *)
Theorem non_object_body_uncaught `{Environment} (data : json) :
  is_dict data = false →
  (∃ msg, extract_powerpoint data = Uncaught (TypeError msg)) ∧
  update_powerpoint data = Uncaught (AttributeError (type_name data) "get").
Proof.
  intros Hdata. destruct data; try done; split; try done; by eexists.
Qed.

Lemma non_object_body_uncaught_witness :
  (∃ msg, @extract_powerpoint Fixture.env (JArr [JStr "file_data"])
          = Uncaught (TypeError msg)) ∧
  @update_powerpoint Fixture.env (JArr [JStr "file_data"])
    = Uncaught (AttributeError "list" "get").
Proof.
  apply (@non_object_body_uncaught Fixture.env (JArr [JStr "file_data"])).
  reflexivity.
Defined.

(** ** The existing-document field when it is not a string *)

(** X2: an [original_file] that is not a string selects create mode when it
    is falsy (null, false, 0, an empty list or object), and otherwise fails
    inside the guard on [original_file.strip()]: the request gets the error
    response, and neither mode is run. *)
Theorem non_string_document_field `{Environment}
    (original_file update_instructions filename : json) :
  is_str original_file = false →
  (truthy original_file = false →
   open_presentation original_file = create_presentation) ∧
  (truthy original_file = true →
   try_except (update_body original_file update_instructions filename)
   = error_response (AttributeError (type_name original_file) "strip")).
Proof.
  intros Hstr. unfold update_body, synthesize, open_presentation, update_mode.
  split; intros Htruthy; rewrite Htruthy; simpl; [done|].
  by destruct original_file.
Qed.

Lemma non_string_document_field_witness :
  @open_presentation Fixture.env (JArr []) = @create_presentation Fixture.env ∧
  try_except (@update_body Fixture.env (JNum 5) Fixture.intro_outline (JStr "a.pptx"))
  = error_response (AttributeError "int" "strip").
Proof.
  split.
  - apply (proj1 (@non_string_document_field Fixture.env (JArr [])
                    Fixture.intro_outline (JStr "a.pptx") eq_refl)).
    reflexivity.
  - apply (proj2 (@non_string_document_field Fixture.env (JNum 5)
                    Fixture.intro_outline (JStr "a.pptx") eq_refl)).
    reflexivity.
Defined.

(** ** Instructions that are not objects *)

(** X3: when [update_instructions] is not an object, no slide is ever
    added: the test ['slides' in update_instructions] is a [TypeError] on
    null, booleans and numbers, and where it holds on a list or a string
    the subscript that follows is a [TypeError]; the only way through
    leaves the document as it is. *)
Theorem non_object_instructions_add_nothing
    (update_instructions : json) (prs prs' : Presentation) :
  is_dict update_instructions = false →
  add_outline update_instructions prs = Ok prs' →
  prs' = prs.
Proof.
  intros Hdict. unfold add_outline.
  destruct update_instructions as [| | | s | l | ]; try done; simpl.
  - destruct (str_contains "slides" s); simpl; [done | by intros [= <-]].
  - destruct (existsb _ l); simpl; [done | by intros [= <-]].
Qed.

Lemma non_object_instructions_add_nothing_witness :
  ∃ prs', add_outline (JArr [JNum 1; JStr "slide"]) Fixture.deck = Ok prs' ∧
          prs' = Fixture.deck.
Proof.
  exists Fixture.deck. split; [reflexivity|].
  apply (non_object_instructions_add_nothing
           (JArr [JNum 1; JStr "slide"]) Fixture.deck Fixture.deck eq_refl).
  reflexivity.
Defined.

(** ** Blank documents *)

(** X4: a string [original_file] selects update mode unless it is the text
    null or is whitespace throughout (the empty string included); the
    whitespace characters are those [str.strip()] removes. *)
Theorem string_document_field_mode (s : string) :
  update_mode (JStr s) = Ok (negb (String.eqb s "null") && negb (all_space s)).
Proof. apply update_mode_str. Qed.

(** ** A gallery without layouts *)

(** X5: when the document has no layout, the first outline entry that is
    an object ends the request: both tests of the layout selection fail,
    the last branch reads index 0, and the [IndexError] becomes the error
    response.  With an empty outline the same document is accepted. *)
Theorem empty_gallery_rejected
    (fields : list (string * json)) (entries : list json) (prs : Presentation) :
  slide_layouts prs = [] →
  for_each add_outline_slide (JObj fields :: entries) prs
    = Raise (IndexError "slide layout index out of range") ∧
  for_each add_outline_slide [] prs = Ok prs.
Proof.
  intros Hnone. split; [|done]. simpl.
  unfold add_outline_slide. simpl.
  unfold select_layout, layouts_getitem. by rewrite Hnone.
Qed.

Lemma empty_gallery_rejected_witness :
  for_each add_outline_slide
    [JObj [("title", JStr "Intro")]] (mkPresentation [] ∅ [])
  = Raise (IndexError "slide layout index out of range").
Proof.
  apply (proj1 (empty_gallery_rejected [("title", JStr "Intro")] []
                  (mkPresentation [] ∅ []) eq_refl)).
Defined.

(** ** Bullets that are not a list of strings *)

(** A truthy [bullets] value with a length is what is joined. *)
Lemma fill_content_bullets
    (fields : list (string * json)) (v : json) (n : nat) (slide : Slide) (pos : nat) :
  dict_get fields "bullets" = Some v →
  truthy v = true →
  py_len v = Ok n →
  1 < placeholders_len slide →
  placeholders_getitem slide 1 = Ok pos →
  fill_content (JObj fields) slide
  = text ← py_join LF v; set_text pos (JStr text) slide.
Proof.
  intros Hb Htruthy Hn Hlen Hpos. unfold fill_content.
  case_bool_decide; [|done]. rewrite Hpos. cbn [mbind result_bind].
  unfold content_lines, present_and_truthy.
  cbn [py_contains py_getitem mbind result_bind]. rewrite Hb.
  rewrite (bool_decide_eq_true_2 (is_Some (Some v))) by (by eexists).
  cbn [mbind result_bind]. rewrite Htruthy. cbn [mbind result_bind].
  rewrite Hn. cbn [mbind result_bind]. by rewrite Htruthy.
Qed.

Lemma str_items_chars (i : nat) (s : string) :
  str_items i (map JStr (chars s)) = Ok (chars s).
Proof. apply str_items_strs. Qed.

(** X6: when [bullets] holds a single non-empty string instead of a list,
    [str.join] runs over its characters: the content region gets one line
    per character. *)
Theorem bullets_string_split
    (fields : list (string * json)) (s : string) (slide : Slide) (pos : nat) :
  dict_get fields "bullets" = Some (JStr s) →
  s ≠ EmptyString →
  1 < placeholders_len slide →
  placeholders_getitem slide 1 = Ok pos →
  fill_content (JObj fields) slide
    = Ok (write_text pos (str_join LF (chars s)) slide).
Proof.
  intros Hb Hs Hlen Hpos.
  rewrite (fill_content_bullets fields (JStr s) (String.length s) slide pos);
    try done.
  - unfold py_join. simpl. by rewrite str_items_chars.
  - simpl. by destruct (String.eqb_spec s EmptyString).
Qed.

Lemma bullets_string_split_witness :
  fill_content (JObj [("bullets", JStr "abc")])
               (new_slide Fixture.title_and_content_layout)
  = Ok (mkSlide [mkShape (Some 0) (Some EmptyString);
                 mkShape (Some 1) (Some ("a" +:+ LF +:+ "b" +:+ LF +:+ "c"))]).
Proof.
  rewrite (bullets_string_split [("bullets", JStr "abc")] "abc"
             (new_slide Fixture.title_and_content_layout) 1
             eq_refl ltac:(done) ltac:(vm_compute; lia) eq_refl).
  reflexivity.
Defined.

Lemma str_items_first_other (i : nat) (pre : list string) (x : json) (post : list json) :
  is_str x = false →
  str_items i (map JStr pre ++ x :: post)
  = Raise (TypeError ("sequence item " +:+ pretty (i + length pre)
                      +:+ ": expected str instance, " +:+ type_name x +:+ " found")).
Proof.
  intros Hx. revert i. induction pre as [|p pre IH]; intros i; simpl.
  - rewrite Nat.add_0_r. by destruct x.
  - rewrite IH. simpl. by rewrite Nat.add_succ_r.
Qed.

(** X7: when [bullets] is a list with an item that is not a string, the
    join fails at the first such item and the slide is not filled: the
    [TypeError] names the position and the type of that item. *)
Theorem bullets_item_not_string
    (fields : list (string * json)) (pre : list string) (x : json)
    (post : list json) (slide : Slide) (pos : nat) :
  dict_get fields "bullets" = Some (JArr (map JStr pre ++ x :: post)) →
  is_str x = false →
  1 < placeholders_len slide →
  placeholders_getitem slide 1 = Ok pos →
  fill_content (JObj fields) slide
  = Raise (TypeError ("sequence item " +:+ pretty (length pre)
                      +:+ ": expected str instance, " +:+ type_name x +:+ " found")).
Proof.
  intros Hb Hx Hlen Hpos.
  rewrite (fill_content_bullets fields _ (length (map JStr pre ++ x :: post))
             slide pos Hb); try done.
  - unfold py_join. cbn [mbind result_bind py_iter].
    by rewrite (str_items_first_other 0 pre x post Hx).
  - simpl. rewrite length_app. simpl.
    apply negb_true_iff, bool_decide_eq_false. lia.
Qed.

Lemma bullets_item_not_string_witness :
  fill_content (JObj [("bullets", JArr [JStr "a"; JNum 2; JStr "c"])])
               (new_slide Fixture.title_and_content_layout)
  = Raise (TypeError "sequence item 1: expected str instance, int found").
Proof.
  rewrite (bullets_item_not_string
             [("bullets", JArr [JStr "a"; JNum 2; JStr "c"])] ["a"] (JNum 2)
             [JStr "c"] (new_slide Fixture.title_and_content_layout) 1
             eq_refl eq_refl ltac:(vm_compute; lia) eq_refl).
  reflexivity.
Defined.

(** ** Layouts without a title or without a content region *)

(** What lines 83 to 85 and lines 88 to 101 can do to a slide: nothing, or
    replace the text of one element. *)
Lemma fill_title_shape (slide_data : json) (slide slide' : Slide) :
  fill_title slide_data slide = Ok slide' →
  slide' = slide ∨
  ∃ pos sh t, title_elm slide = Some (pos, sh) ∧ slide' = write_text pos t slide.
Proof.
  unfold fill_title. intros Hfill. inv_bind Hfill. rename a into has_title.
  destruct has_title; [|left; by injection Hfill as <-].
  destruct (title_elm slide) as [[pos sh]|]; [|left; by injection Hfill as <-].
  inv_bind Hfill. rename a into title. unfold set_text in Hfill.
  destruct title as [| | | t | | ]; try done.
  injection Hfill as <-. right. by exists pos, sh, t.
Qed.

Lemma fill_content_shape (slide_data : json) (slide slide' : Slide) :
  fill_content slide_data slide = Ok slide' →
  slide' = slide ∨
  ∃ pos t, 1 < placeholders_len slide ∧
           placeholders_getitem slide 1 = Ok pos ∧ slide' = write_text pos t slide.
Proof.
  unfold fill_content. intros Hfill.
  case_bool_decide as Hlen; [|left; by injection Hfill as <-].
  inv_bind Hfill. rename a into pos. inv_bind Hfill. rename a into lines.
  destruct (truthy lines); [|left; by injection Hfill as <-].
  inv_bind Hfill. rename a into text. injection Hfill as <-.
  right. by exists pos, text.
Qed.

Lemma find_ph_write_text_None idx pos s slide :
  find_ph idx slide = None → find_ph idx (write_text pos s slide) = None.
Proof.
  unfold find_ph, write_text. simpl. intros Hnone.
  by rewrite list_find_ph_alter, Hnone.
Qed.

(** X8: on a layout without a title placeholder the title of an outline
    entry is dropped without an error: the slide made has no title region,
    and the extractor reads an empty title from it. *)
Theorem title_dropped_without_region
    (layout : SlideLayout) (slide_data : json) (slide : Slide) (next : nat) :
  title_elm (new_slide layout) = None →
  outline_slide layout slide_data = Ok slide →
  title_elm slide = None ∧
  ∃ next', slide_title slide next = Ok (EmptyString, next').
Proof.
  intros Hnone Hslide. unfold outline_slide in Hslide.
  inv_bind Hslide. rename a into slide1, Ha into Htitle.
  assert (title_elm slide = None) as Hnone'.
  { apply fill_title_shape in Htitle as [-> | (pos & sh & t & Hsome & _)];
      [|congruence].
    apply fill_content_shape in Hslide as [-> | (pos & t & _ & _ & ->)]; [done|].
    by apply find_ph_write_text_None. }
  split; [done|].
  destruct (slide_title_run slide next) as [next' Hrun].
  rewrite Hnone' in Hrun. by exists next'.
Qed.

Lemma title_dropped_without_region_witness :
  title_elm (mkSlide [mkShape (Some 1) (Some "Point");
                      mkShape (Some 2) (Some EmptyString)]) = None ∧
  ∃ next', slide_title (mkSlide [mkShape (Some 1) (Some "Point");
                                 mkShape (Some 2) (Some EmptyString)]) 0
           = Ok (EmptyString, next').
Proof.
  apply (title_dropped_without_region
           (mkSlideLayout [mkLayoutPlaceholder 1 BODY; mkLayoutPlaceholder 2 BODY])
           (JObj [("title", JStr "Intro"); ("bullets", JArr [JStr "Point"])])
           (mkSlide [mkShape (Some 1) (Some "Point");
                     mkShape (Some 2) (Some EmptyString)]) 0);
    reflexivity.
Defined.

Lemma fill_title_placeholders_len (slide_data : json) (slide slide' : Slide) :
  fill_title slide_data slide = Ok slide' →
  placeholders_len slide' = placeholders_len slide.
Proof.
  intros [-> | (pos & sh & t & _ & ->)]%fill_title_shape; [done|].
  apply placeholders_len_write_text.
Qed.

(** X9: on a layout that gives at most one placeholder, [bullets] and
    [content] are never read: whatever they hold, even values the join
    would reject, the slide is the new slide with at most its title set. *)
Theorem content_ignored_without_region (layout : SlideLayout) (slide_data : json) :
  placeholders_len (new_slide layout) ≤ 1 →
  outline_slide layout slide_data = fill_title slide_data (new_slide layout).
Proof.
  intros Hlen. unfold outline_slide.
  destruct (fill_title slide_data (new_slide layout)) as [slide1|e] eqn:Htitle;
    [|done].
  cbn [mbind result_bind]. unfold fill_content.
  rewrite (fill_title_placeholders_len _ _ _ Htitle).
  case_bool_decide; [lia | done].
Qed.

Lemma content_ignored_without_region_witness :
  outline_slide Fixture.title_only_layout
    (JObj [("title", JStr "Intro"); ("bullets", JNum 7)])
  = Ok (mkSlide [mkShape (Some 0) (Some "Intro")]).
Proof.
  rewrite (content_ignored_without_region Fixture.title_only_layout
             (JObj [("title", JStr "Intro"); ("bullets", JNum 7)])
             ltac:(vm_compute; lia)).
  reflexivity.
Defined.

(** ** What appending keeps *)

(** The slide ids the loop appends: one per entry, distinct, not related
    before and slide parts after; nothing that was related is touched. *)
Lemma for_each_add_outline_slide_ids (entries : list json) (prs prs' : Presentation) :
  for_each add_outline_slide entries prs = Ok prs' →
  ∃ rIds,
    sldIdLst prs' = sldIdLst prs ++ rIds ∧
    length rIds = length entries ∧
    NoDup rIds ∧
    (∀ r, r ∈ rIds → rels prs !! r = None) ∧
    (∀ r, r ∈ rIds → ∃ s, rels prs' !! r = Some (SlidePart s)) ∧
    (∀ r p, rels prs !! r = Some p → rels prs' !! r = Some p) ∧
    slide_layouts prs' = slide_layouts prs.
Proof.
  revert prs. induction entries as [|e entries IH]; intros prs Hloop.
  - injection Hloop as <-. exists []. rewrite app_nil_r.
    repeat split; try done; try constructor; by intros r ?%elem_of_nil.
  - simpl in Hloop. inv_bind Hloop. rename a into prs1.
    apply add_outline_slide_Ok in Ha as (layout & rId & slide & _ & Hfresh & _ & ->).
    destruct (IH _ Hloop) as (rIds & Hids & Hlen & Hnodup & Hnew & Hres & Hframe & Hlay).
    simpl in *.
    assert (rels prs' !! rId = Some (SlidePart slide)) as HrId.
    { apply Hframe. by rewrite lookup_insert_eq. }
    exists (rId :: rIds). repeat split.
    + by rewrite Hids, <- app_assoc.
    + simpl. by rewrite Hlen.
    + constructor; [|done]. intros Hin. apply Hnew in Hin.
      by rewrite lookup_insert_eq in Hin.
    + intros r [-> | Hin]%elem_of_cons; [done|].
      apply Hnew in Hin. by apply lookup_insert_None in Hin as [? _].
    + intros r [-> | Hin]%elem_of_cons; [by exists slide | by apply Hres].
    + intros r p Hr. apply Hframe. rewrite lookup_insert_ne; [done|].
      intros ->. congruence.
    + done.
Qed.

Lemma add_outline_well_formed (update_instructions : json) (prs prs' : Presentation) :
  well_formed prs →
  add_outline update_instructions prs = Ok prs' →
  well_formed prs'.
Proof.
  intros [Hnodup Hres] Hadd. rewrite add_outline_entries in Hadd.
  inv_bind Hadd. rename a into entries.
  apply for_each_add_outline_slide_ids in Hadd
    as (rIds & Hids & _ & Hnodup' & Hnew & Hres' & Hframe & _).
  split; rewrite Hids.
  - apply NoDup_app. repeat split; [done | | done].
    intros r Hold Hin. destruct (Hres r Hold) as [s Hs].
    rewrite (Hnew r Hin) in Hs. done.
  - intros r [Hold | Hin]%elem_of_app; [|by apply Hres'].
    destruct (Hres r Hold) as [s Hs]. exists s. by apply Hframe.
Qed.

(** A slide id listed once is referenced once. *)
Lemma rel_ref_count_head (r : string) (rest : list string) rs layouts :
  r ∉ rest → rel_ref_count (mkPresentation (r :: rest) rs layouts) r = 1.
Proof.
  intros Hr. unfold rel_ref_count. simpl. rewrite filter_cons_True by done.
  simpl. f_equal. apply length_zero_iff_nil.
  induction rest as [|x rest IH]; [done|].
  apply not_elem_of_cons in Hr as [Hne Hr].
  rewrite filter_cons_False by done. by apply IH.
Qed.

Lemma create_presentation_cons `{Environment} (r : string) (rest : list string) :
  sldIdLst default_template = r :: rest →
  r ∉ rest →
  is_Some (rels default_template !! r) →
  create_presentation
  = Ok (mkPresentation rest (delete r (rels default_template))
                       (slide_layouts default_template)).
Proof.
  unfold create_presentation. destruct default_template as [ids rs layouts].
  simpl. intros -> Hr [p Hp]. simpl.
  unfold drop_rel. rewrite (rel_ref_count_head r rest rs layouts Hr).
  simpl. by rewrite Hp.
Qed.

Lemma create_presentation_well_formed `{Environment} (prs : Presentation) :
  well_formed default_template →
  create_presentation = Ok prs →
  well_formed prs.
Proof.
  intros [Hnodup Hres] Hcreate.
  destruct (sldIdLst default_template) as [|r rest] eqn:Hids.
  - unfold create_presentation in Hcreate. rewrite Hids in Hcreate.
    simpl in Hcreate. injection Hcreate as <-. split; by rewrite Hids.
  - apply NoDup_cons in Hnodup as [Hr Hnodup].
    rewrite (create_presentation_cons r rest Hids Hr) in Hcreate.
    + injection Hcreate as <-. split; [done|]. simpl. intros r' Hr'.
      destruct (Hres r') as [s Hs]; [by right|]. exists s.
      rewrite lookup_delete_ne; [done|]. by intros ->.
    + destruct (Hres r) as [s Hs]; [by left|]. by eexists.
Qed.

(** X10: the document the handler saves is well formed whenever the one it
    starts from is, the supplied document in update mode and the template
    in create mode: its slide ids are distinct and each resolves to a slide
    part, the new ones included. *)
Theorem synthesize_well_formed `{Environment}
    (original_file update_instructions : json) (prs : Presentation) :
  (∀ supplied, b64decode original_file = Ok (Package supplied) →
               well_formed supplied) →
  well_formed default_template →
  synthesize original_file update_instructions = Ok prs →
  well_formed prs.
Proof.
  intros Hsupplied Htemplate Hsynth. unfold synthesize in Hsynth.
  inv_bind Hsynth. rename a into prs0, Ha into Hopen.
  apply (add_outline_well_formed update_instructions prs0); [|done].
  unfold open_presentation in Hopen. inv_bind Hopen. rename a into update.
  destruct update.
  - inv_bind Hopen. rename a into file_data, Ha0 into Hdec.
    destruct file_data as [supplied|e]; [|done].
    injection Hopen as <-. by apply Hsupplied.
  - by apply create_presentation_well_formed.
Qed.

Lemma synthesize_well_formed_witness : well_formed Fixture.updated_deck.
Proof.
  apply (@synthesize_well_formed Fixture.env (JStr "REVDSw==") Fixture.intro_outline).
  - intros supplied [= <-]. split.
    + repeat constructor. by intros ?%elem_of_nil.
    + intros r ->%list_elem_of_singleton. by eexists.
  - split.
    + repeat constructor. by intros ?%elem_of_nil.
    + intros r ->%list_elem_of_singleton. by eexists.
  - vm_compute. reflexivity.
Defined.

(** X11: update mode only adds.  Whatever the supplied document holds, the
    document saved has its layout gallery, every relationship it had (slide
    parts and others) under the same rId, and its slide list followed by
    exactly one new slide id per outline entry. *)
Theorem update_only_adds `{Environment}
    (original_file update_instructions : json) (supplied prs : Presentation) :
  update_mode original_file = Ok true →
  b64decode original_file = Ok (Package supplied) →
  synthesize original_file update_instructions = Ok prs →
  slide_layouts prs = slide_layouts supplied ∧
  (∀ r p, rels supplied !! r = Some p → rels prs !! r = Some p) ∧
  ∃ entries rIds,
    outline_entries update_instructions = Ok entries ∧
    sldIdLst prs = sldIdLst supplied ++ rIds ∧
    length rIds = length entries.
Proof.
  intros Hmode Hdec Hsynth. unfold synthesize, open_presentation in Hsynth.
  rewrite Hmode in Hsynth. cbn [mbind result_bind] in Hsynth.
  rewrite Hdec in Hsynth. cbn [mbind result_bind Presentation_open] in Hsynth.
  rewrite add_outline_entries in Hsynth. inv_bind Hsynth. rename a into entries.
  apply for_each_add_outline_slide_ids in Hsynth
    as (rIds & Hids & Hlen & _ & _ & _ & Hframe & Hlay).
  repeat split; try done. by exists entries, rIds.
Qed.

Lemma update_only_adds_witness :
  slide_layouts Fixture.updated_deck = slide_layouts Fixture.deck ∧
  (∀ r p, rels Fixture.deck !! r = Some p → rels Fixture.updated_deck !! r = Some p) ∧
  ∃ entries rIds,
    outline_entries Fixture.intro_outline = Ok entries ∧
    sldIdLst Fixture.updated_deck = sldIdLst Fixture.deck ++ rIds ∧
    length rIds = length entries.
Proof.
  apply (@update_only_adds Fixture.env (JStr "REVDSw==") Fixture.intro_outline);
    [reflexivity | reflexivity | vm_compute; reflexivity].
Defined.



(** ** What the extractor returns *)

Lemma slide_content_entry (i : nat) (slide : Slide) (next : nat) (t : string) :
  title_text slide = Ok t →
  ∃ next', slide_content i slide next = Ok (slide_entry i slide t, next').
Proof.
  intros Htitle. unfold slide_content, mbind, Obj_bind.
  destruct (slide_title_run slide next) as [next1 ->].
  unfold title_text in Htitle.
  destruct (title_elm slide) as [[pos elm]|].
  - rewrite Htitle.
    destruct (shape_texts_all slide (spTree slide) next1) as [next2 ->].
    by eexists.
  - injection Htitle as <-.
    destruct (shape_texts_all slide (spTree slide) next1) as [next2 ->].
    by eexists.
Qed.

Lemma slides_content_entries (prs : Presentation) (rIds : list string)
    (ss : list Slide) (ts : list string) (i next : nat) :
  Forall2 (λ r s, rels prs !! r = Some (SlidePart s)) rIds ss →
  Forall2 (λ s t, title_text s = Ok t) ss ts →
  ∃ next', slides_content prs i rIds next = Ok (slide_entries i ss ts, next').
Proof.
  intros Hrel. revert ts i next.
  induction Hrel as [|r s rIds ss Hr Hrel IH]; intros ts i next Hts.
  - inversion Hts; subst. by exists next.
  - inversion Hts as [|? t ? ts' Ht Hrest]; subst.
    cbn [slides_content slide_entries]. unfold mbind, Obj_bind, lift, related_slide.
    rewrite Hr.
    destruct (slide_content_entry i s next t Ht) as [next1 ->].
    destruct (IH ts' (S i) next1 Hrest) as [next2 ->].
    by exists next2.
Qed.

Lemma slide_entries_lookup (i j : nat) (ss : list Slide) (ts : list string) (c : json) :
  length ss = length ts →
  slide_entries i ss ts !! j = Some c ↔
  ∃ s t, ss !! j = Some s ∧ ts !! j = Some t ∧ c = slide_entry (i + j) s t.
Proof.
  revert i j ts. induction ss as [|s ss IH]; intros i j [|t ts] Hlen; try done.
  - split; [done | by intros (? & ? & ? & _)].
  - destruct j as [|j]; simpl.
    + rewrite Nat.add_0_r. split.
      * intros [= <-]. by exists s, t.
      * by intros (? & ? & [= <-] & [= <-] & ->).
    + rewrite IH by (simpl in Hlen; lia).
      by replace (i + S j) with (S i + j) by lia.
Qed.

Lemma slide_entries_length (i : nat) (ss : list Slide) (ts : list string) :
  length ss = length ts → length (slide_entries i ss ts) = length ss.
Proof.
  revert i ts. induction ss as [|s ss IH]; intros i [|t ts] Hlen; try done.
  simpl in *. rewrite IH; lia.
Qed.

Lemma extract_entries_closed `{Environment}
    (fields : list (string * json)) (v : json) (prs : Presentation)
    (ss : list Slide) (ts : list string) :
  dict_get fields "file_data" = Some v →
  b64decode v = Ok (Package prs) →
  slides prs = Ok ss →
  Forall2 (λ s t, title_text s = Ok t) ss ts →
  extract_powerpoint (JObj fields)
  = Returned (jsonify (JObj [("slides", JArr (slide_entries 0 ss ts))]) 200).
Proof.
  intros Hv Hdec Hslides Hts. apply slides_Ok in Hslides.
  destruct (slides_content_entries prs (sldIdLst prs) ss ts 0 0 Hslides Hts)
    as [next' Hrun].
  unfold extract_powerpoint. simpl. rewrite Hv. simpl. rewrite Hdec.
  unfold extract_body, Presentation_open. cbn [mbind result_bind].
  unfold run_from. by rewrite Hrun.
Qed.

(** X13: for a document whose slide ids all resolve and whose title shapes
    have text, the extractor answers 200 with one entry per slide, in slide
    order; the entry at position [i] has [slide_number] [i + 1] and, as
    [title], the text of the slide's title shape, or the empty string when
    the slide has none. *)
Theorem extract_numbers_and_titles `{Environment}
    (fields : list (string * json)) (v : json) (prs : Presentation)
    (ss : list Slide) (ts : list string) :
  dict_get fields "file_data" = Some v →
  b64decode v = Ok (Package prs) →
  slides prs = Ok ss →
  Forall2 (λ s t, title_text s = Ok t) ss ts →
  ∃ cs,
    extract_powerpoint (JObj fields)
      = Returned (jsonify (JObj [("slides", JArr cs)]) 200) ∧
    length cs = length ss ∧
    ∀ i c, cs !! i = Some c →
      py_getitem c "slide_number" = Ok (JNum (Z.of_nat i + 1)) ∧
      ∃ t, ts !! i = Some t ∧ py_getitem c "title" = Ok (JStr t).
Proof.
  intros Hv Hdec Hslides Hts.
  exists (slide_entries 0 ss ts). split; [by eapply extract_entries_closed|].
  pose proof (Forall2_length _ _ _ Hts) as Hlen.
  split; [by apply slide_entries_length|].
  intros i c (s & t & _ & Ht & ->)%slide_entries_lookup; [|done].
  split; [done|]. by exists t.
Qed.

Lemma extract_numbers_and_titles_witness :
  ∃ cs,
    @extract_powerpoint Fixture.env (JObj [("file_data", JStr "REVDSw==")])
      = Returned (jsonify (JObj [("slides", JArr cs)]) 200) ∧
    length cs = 1 ∧
    ∀ i c, cs !! i = Some c →
      py_getitem c "slide_number" = Ok (JNum (Z.of_nat i + 1)) ∧
      ∃ t, ["Agenda"] !! i = Some t ∧ py_getitem c "title" = Ok (JStr t).
Proof.
  apply (@extract_numbers_and_titles Fixture.env
           [("file_data", JStr "REVDSw==")] (JStr "REVDSw==") Fixture.deck
           [Fixture.agenda_slide] ["Agenda"]);
    try reflexivity.
  by repeat constructor.
Defined.

(** X14: under the same conditions the [content] of each entry lists, in
    shape order, the text of every shape of the slide that has a text
    frame, and nothing for the shapes that have none. *)
Theorem extract_content_lists_texts `{Environment}
    (fields : list (string * json)) (v : json) (prs : Presentation)
    (ss : list Slide) (ts : list string) :
  dict_get fields "file_data" = Some v →
  b64decode v = Ok (Package prs) →
  slides prs = Ok ss →
  Forall2 (λ s t, title_text s = Ok t) ss ts →
  ∃ cs,
    extract_powerpoint (JObj fields)
      = Returned (jsonify (JObj [("slides", JArr cs)]) 200) ∧
    Forall2 (λ c s, py_getitem c "content"
                    = Ok (JArr (map JStr (omap text_frame (spTree s))))) cs ss.
Proof.
  intros Hv Hdec Hslides Hts.
  exists (slide_entries 0 ss ts). split; [by eapply extract_entries_closed|].
  clear Hslides. generalize 0 as i.
  induction Hts as [|s t ss ts _ _ IH]; intros i; constructor; [done | apply IH].
Qed.

Lemma extract_content_lists_texts_witness :
  ∃ cs,
    @extract_powerpoint Fixture.env (JObj [("file_data", JStr "REVDSw==")])
      = Returned (jsonify (JObj [("slides", JArr cs)]) 200) ∧
    Forall2 (λ c s, py_getitem c "content"
                    = Ok (JArr (map JStr (omap text_frame (spTree s)))))
            cs [Fixture.agenda_slide].
Proof.
  apply (@extract_content_lists_texts Fixture.env
           [("file_data", JStr "REVDSw==")] (JStr "REVDSw==") Fixture.deck
           [Fixture.agenda_slide] ["Agenda"]);
    try reflexivity.
  by repeat constructor.
Defined.

Lemma slides_content_dangling (prs : Presentation) (rIds : list string)
    (r : string) (i next : nat) :
  r ∈ rIds →
  (∀ s, rels prs !! r ≠ Some (SlidePart s)) →
  ∃ e, slides_content prs i rIds next = Raise e.
Proof.
  intros Hin Hdangling. revert i next.
  induction rIds as [|rId rIds IH]; intros i next; [by apply elem_of_nil in Hin|].
  cbn [slides_content]. unfold mbind, Obj_bind, lift.
  destruct (related_slide prs rId) as [slide|e] eqn:Hslide; [|by exists e].
  destruct (slide_content i slide next) as [[c next1]|e]; [|by exists e].
  apply elem_of_cons in Hin as [-> | Hin].
  - apply related_slide_Ok in Hslide. by destruct (Hdangling slide).
  - destruct (IH Hin (S i) next1) as [e ->]. by exists e.
Qed.

(** X15: no partial list.  If one slide id of the document does not
    resolve to a slide part, the extractor answers with the error response,
    wherever in the slide list that id stands: the entries of the slides
    before it are not returned. *)
Theorem extract_dangling_slide_id `{Environment}
    (fields : list (string * json)) (v : json) (prs : Presentation) (r : string) :
  dict_get fields "file_data" = Some v →
  b64decode v = Ok (Package prs) →
  r ∈ sldIdLst prs →
  (∀ s, rels prs !! r ≠ Some (SlidePart s)) →
  ∃ e, extract_powerpoint (JObj fields) = Returned (error_response e).
Proof.
  intros Hv Hdec Hin Hdangling.
  destruct (slides_content_dangling prs (sldIdLst prs) r 0 0 Hin Hdangling)
    as [e Hrun].
  exists e. unfold extract_powerpoint. simpl. rewrite Hv. simpl. rewrite Hdec.
  unfold extract_body, Presentation_open. cbn [mbind result_bind].
  unfold run_from. by rewrite Hrun.
Qed.

Lemma extract_dangling_slide_id_witness :
  ∃ e,
    @extract_powerpoint
      {| b64decode := λ _, Ok (Package (mkPresentation ["rId4"; "rId9"]
                                          (rels Fixture.deck) []));
         default_template := Fixture.template |}
      (JObj [("file_data", JStr "REVDSw==")])
    = Returned (error_response e).
Proof.
  apply (@extract_dangling_slide_id
           {| b64decode := λ _, Ok (Package (mkPresentation ["rId4"; "rId9"]
                                               (rels Fixture.deck) []));
              default_template := Fixture.template |}
           [("file_data", JStr "REVDSw==")] (JStr "REVDSw==")
           (mkPresentation ["rId4"; "rId9"] (rels Fixture.deck) []) "rId9").
  - reflexivity.
  - reflexivity.
  - set_solver.
  - intros s. by vm_compute.
Defined.

(** ** Round trip of the body text *)

Lemma write_text_text_frames pos t slide :
  Forall (λ sh, is_Some (text_frame sh)) (spTree slide) →
  Forall (λ sh, is_Some (text_frame sh)) (spTree (write_text pos t slide)).
Proof.
  intros Hall. unfold write_text. simpl.
  apply Forall_alter; [done|]. intros sh _ _. by eexists.
Qed.

(** Every shape of a slide made from an outline entry has a text frame. *)
Lemma outline_slide_text_frames (layout : SlideLayout) (e : json) (slide : Slide) :
  outline_slide layout e = Ok slide →
  Forall (λ sh, is_Some (text_frame sh)) (spTree slide).
Proof.
  unfold outline_slide. intros Hslide. inv_bind Hslide. rename a into slide1.
  assert (Forall (λ sh, is_Some (text_frame sh)) (spTree slide1)) as Hall1.
  { apply fill_title_shape in Ha as [-> | (pos & sh & t & _ & ->)].
    - unfold new_slide. simpl. apply Forall_fmap, Forall_true.
      intros ph. by eexists.
    - apply write_text_text_frames. unfold new_slide. simpl.
      apply Forall_fmap, Forall_true. intros ph. by eexists. }
  apply fill_content_shape in Hslide as [-> | (pos & t & _ & _ & ->)]; [done|].
  by apply write_text_text_frames.
Qed.

Lemma text_frames_title_text (slide : Slide) :
  Forall (λ sh, is_Some (text_frame sh)) (spTree slide) →
  ∃ t, title_text slide = Ok t.
Proof.
  intros Hall. unfold title_text, title_elm, find_ph.
  destruct (list_find _ (spTree slide)) as [[pos sh]|] eqn:Hfind; [|by eexists].
  apply list_find_Some in Hfind as (Hpos & _).
  rewrite Forall_lookup in Hall. destruct (Hall pos sh Hpos) as [t Ht].
  exists t. unfold shape_text. by rewrite Ht.
Qed.

(** On a layout with a content region, the slide of an entry with a
    non-empty list of bullets has a shape whose text is the bullets joined
    by newlines, escaped. *)
Lemma outline_slide_body (layout : SlideLayout)
    (fields : list (string * json)) (lines : list string) (slide : Slide) :
  1 < placeholders_len (new_slide layout) →
  is_Some (find_ph 1 (new_slide layout)) →
  dict_get fields "bullets" = Some (str_list lines) →
  lines ≠ [] →
  outline_slide layout (JObj fields) = Ok slide →
  escape (str_join LF lines) ∈ omap text_frame (spTree slide).
Proof.
  intros Hlen Hregion Hb Hlines Hslide. unfold outline_slide in Hslide.
  inv_bind Hslide. rename a into slide1, Ha into Htitle.
  assert (1 < placeholders_len slide1) as Hlen1.
  { by rewrite (fill_title_placeholders_len _ _ _ Htitle). }
  assert (is_Some (find_ph 1 slide1)) as [[pos1 sh1] Hfind].
  { apply fill_title_shape in Htitle as [-> | (pos & sh & t & _ & ->)]; [done|].
    by apply find_ph_write_text_is_Some. }
  rewrite (fill_content_bullets fields (str_list lines) (length lines) slide1 pos1)
    in Hslide; try done.
  - rewrite py_join_str_list in Hslide. simpl in Hslide. injection Hslide as <-.
    pose proof (find_ph_write_text 1 pos1 (str_join LF lines) slide1 pos1 sh1 Hfind)
      as Hfind'.
    case_bool_decide; [|done].
    apply list_find_Some in Hfind' as (Hpos & _).
    apply list_elem_of_omap.
    exists (mkShape (ph_idx sh1) (Some (escape (str_join LF lines)))). split; [|done].
    apply list_elem_of_lookup. by exists pos1.
  - rewrite truthy_str_list. by case_bool_decide.
  - unfold str_list. simpl. by rewrite length_map.
  - unfold placeholders_getitem. by rewrite Hfind.
Qed.

Lemma title_texts_exist (ss : list Slide) :
  Forall (λ s, ∃ t, title_text s = Ok t) ss →
  ∃ ts, Forall2 (λ s t, title_text s = Ok t) ss ts.
Proof.
  induction 1 as [|s ss [t Ht] _ [ts IH]]; [by exists [] |].
  exists (t :: ts). by constructor.
Qed.

Lemma slide_entries_content (i : nat) (ss : list Slide) (ts : list string)
    (liness : list (list string)) :
  Forall2 (λ s t, title_text s = Ok t) ss ts →
  Forall2 (λ s lines, escape (str_join LF lines) ∈ omap text_frame (spTree s))
          ss liness →
  Forall2 (λ c lines, ∃ content, py_getitem c "content" = Ok (JArr content) ∧
                                 JStr (escape (str_join LF lines)) ∈ content)
          (slide_entries i ss ts) liness.
Proof.
  intros Hts. revert i liness.
  induction Hts as [|s t ss ts _ _ IH]; intros i liness Hbody;
    inversion Hbody as [|? lines ? liness' Hin Hrest]; subst; simpl;
    constructor; [|by apply IH].
  eexists. split; [done|]. by apply list_elem_of_fmap_2.
Qed.

Lemma built_title_texts (prs : Presentation) (entries : list json) (news : list Slide) :
  Forall2 (λ e s, ∃ layout, select_layout prs = Ok layout ∧
                            outline_slide layout e = Ok s) entries news →
  Forall (λ s, ∃ t, title_text s = Ok t) news.
Proof.
  induction 1 as [|e s ? ? (layout & _ & Hs) _ IH]; constructor; [|done].
  by eapply text_frames_title_text, outline_slide_text_frames.
Qed.

Lemma built_bodies (prs : Presentation) (entries : list json) (news : list Slide)
    (liness : list (list string)) :
  (∀ layout, select_layout prs = Ok layout →
             1 < placeholders_len (new_slide layout) ∧
             is_Some (find_ph 1 (new_slide layout))) →
  Forall2 (λ e s, ∃ layout, select_layout prs = Ok layout ∧
                            outline_slide layout e = Ok s) entries news →
  Forall2 (λ e lines, ∃ f, e = JObj f ∧
                           dict_get f "bullets" = Some (str_list lines) ∧
                           lines ≠ []) entries liness →
  Forall2 (λ s lines, escape (str_join LF lines) ∈ omap text_frame (spTree s))
          news liness.
Proof.
  intros Hlayout Hbuilt. revert liness.
  induction Hbuilt as [|e s ? ? (layout & Hl & Hs) _ IH]; intros liness Hlines;
    inversion Hlines as [|? lines ? ? (f & -> & Hb & Hne)]; subst;
    constructor; [|by apply IH].
  destruct (Hlayout layout Hl) as [Hgt Hregion].
  by eapply outline_slide_body.
Qed.

(** X16: in create mode, on a template of at most one slide whose selected
    layout gives a content region, and for an outline whose entries all
    carry a non-empty list of bullets without a control character other
    than tab, line feed and vertical tab: when the synthesizer returns a
    file and that file is what the extractor is sent, the content of each
    extracted entry holds the bullets of its outline entry, joined by
    newlines. *)
Theorem roundtrip_body `{Environment}
    (req : list (string * json)) (update_instructions : json)
    (entries : list json) (liness : list (list string))
    (file_stream : bytes) (name : json) (mimetype : string)
    (fields : list (string * json)) (v : json) :
  dict_get req "update_instructions" = Some update_instructions →
  update_mode (default JNull (dict_get req "original_file")) = Ok false →
  length (sldIdLst default_template) ≤ 1 →
  (∀ layout, select_layout default_template = Ok layout →
             1 < placeholders_len (new_slide layout) ∧
             is_Some (find_ph 1 (new_slide layout))) →
  outline_entries update_instructions = Ok entries →
  Forall2 (λ e lines, ∃ f, e = JObj f ∧
                           dict_get f "bullets" = Some (str_list lines) ∧
                           lines ≠ []) entries liness →
  Forall (Forall (λ l, plain l = true)) liness →
  update_powerpoint (JObj req) = Returned (send_file file_stream name mimetype) →
  dict_get fields "file_data" = Some v →
  b64decode v = Ok file_stream →
  ∃ cs,
    extract_powerpoint (JObj fields)
      = Returned (jsonify (JObj [("slides", JArr cs)]) 200) ∧
    Forall2 (λ c lines, ∃ content, py_getitem c "content" = Ok (JArr content) ∧
                                   JStr (str_join LF lines) ∈ content)
            cs liness.
Proof.
  intros Hui Hmode Hlen Hlayout Hentries Hlines Hplain Hsynth Hv Hdec.
  unfold update_powerpoint in Hsynth. simpl in Hsynth. rewrite Hui in Hsynth.
  simpl in Hsynth. injection Hsynth as Hbody.
  apply try_except_send_file in Hbody.
  unfold update_body, synthesize, open_presentation in Hbody.
  rewrite Hmode in Hbody. cbn [mbind result_bind] in Hbody.
  inv_bind Hbody. rename a into prs.
  apply flask_send_file_Ok in Hbody. injection Hbody as -> _ _.
  inv_bind Ha. rename a into empty, Ha0 into Hcreate.
  destruct (create_presentation_Ok _ Hlen Hcreate) as (Hids & Hlay & _).
  rewrite add_outline_entries, Hentries in Ha. cbn [mbind result_bind] in Ha.
  apply for_each_add_outline_slide in Ha
    as (rIds & news & Hids' & _ & _ & Hnew & Hbuilt).
  rewrite Hids in Hids'. simpl in Hids'.
  destruct (title_texts_exist news (built_title_texts _ _ _ Hbuilt)) as [ts Hts].
  assert (Forall2 (λ s lines, escape (str_join LF lines)
                              ∈ omap text_frame (spTree s))
                  news liness) as Hbodies.
  { apply (built_bodies empty entries); [|done..].
    intros layout Hl. apply Hlayout. by rewrite <- (select_layout_ext _ _ Hlay). }
  destruct (slides_content_entries prs rIds news ts 0 0 Hnew Hts) as [next' Hrun].
  exists (slide_entries 0 news ts). split.
  - unfold extract_powerpoint. simpl. rewrite Hv. simpl. rewrite Hdec.
    unfold extract_body, save, Presentation_open. cbn [mbind result_bind].
    unfold run_from. by rewrite Hids', Hrun.
  - apply (Forall2_escape_plain
             (λ c s, ∃ content, py_getitem c "content" = Ok (JArr content)
                                ∧ JStr s ∈ content)
             (str_join LF)).
    + by apply slide_entries_content.
    + eapply Forall_impl; [exact Hplain|]. apply plain_str_join.
Qed.

Lemma roundtrip_body_witness :
  ∃ cs,
    @extract_powerpoint Fixture.env (JObj [("file_data", JStr "SU5UUk8=")])
      = Returned (jsonify (JObj [("slides", JArr cs)]) 200) ∧
    Forall2 (λ c lines, ∃ content, py_getitem c "content" = Ok (JArr content) ∧
                                   JStr (str_join LF lines) ∈ content)
            cs [["Point 1"; "Point 2"]].
Proof.
  apply (@roundtrip_body Fixture.env
           [("update_instructions", Fixture.intro_outline)] Fixture.intro_outline
           [JObj [("title", JStr "Intro");
                  ("bullets", JArr [JStr "Point 1"; JStr "Point 2"])]]
           [["Point 1"; "Point 2"]] (Package Fixture.intro_deck)
           (JStr "presentation.pptx") pptx_mimetype
           [("file_data", JStr "SU5UUk8=")] (JStr "SU5UUk8=")).
  - reflexivity.
  - reflexivity.
  - vm_compute. lia.
  - intros layout Hl. vm_compute in Hl. injection Hl as <-.
    split; [vm_compute; lia | by eexists].
  - reflexivity.
  - repeat constructor. by eexists.
  - by repeat constructor.
  - vm_compute. reflexivity.
  - reflexivity.
  - reflexivity.
Defined.

(** * The build script *)

(** The loop stops at the first step that returns [False]. *)
Lemma run_steps_first_failure {World : Type} (print : string → World → World)
    (pre post : list (string * Build.step)) (name : string) (f : Build.step)
    (w w1 w2 : World) :
  Build.run_steps print pre w = (Build.Completed, w1) →
  f (print (LF +:+ "📋 " +:+ name +:+ "...") w1) = (Ok false, w2) →
  Build.run_steps print (pre ++ (name, f) :: post) w
  = (Build.SystemExit 1, print (LF +:+ "❌ Build failed at: " +:+ name) w2).
Proof.
  revert w. induction pre as [|[n g] pre IH]; intros w Hpre Hf.
  - injection Hpre as <-. simpl. by rewrite Hf.
  - simpl in *.
    destruct (g _) as [[[|]|e] w'] eqn:Hg; try done.
    by apply IH.
Qed.

(** X17: [main] of the build script stops at the first step that returns
    [False]: it prints that the build failed at that step and exits with
    status 1, and what it leaves behind does not depend on the later steps,
    which are not called. *)
Theorem build_stops_at_first_failure {World : Type}
    (print : string → World → World) (chdir_to_script : World → World)
    (install_pyinstaller install_dependencies build_executable
       test_executable : Build.step)
    (pre post : list (string * Build.step)) (name : string) (f : Build.step)
    (w w1 w2 : World) :
  Build.steps install_pyinstaller install_dependencies build_executable
              test_executable
    = pre ++ (name, f) :: post →
  Build.run_steps print pre (Build.before_steps print chdir_to_script w)
    = (Build.Completed, w1) →
  f (print (LF +:+ "📋 " +:+ name +:+ "...") w1) = (Ok false, w2) →
  Build.main print chdir_to_script install_pyinstaller install_dependencies
             build_executable test_executable w
  = (Build.SystemExit 1, print (LF +:+ "❌ Build failed at: " +:+ name) w2).
Proof.
  intros Hsteps Hpre Hf. unfold Build.main. rewrite Hsteps.
  by rewrite (run_steps_first_failure print pre post name f _ w1 w2 Hpre Hf).
Qed.

Lemma build_stops_at_first_failure_witness :
  ∃ out,
    Build.main Build.transcript_print id Build.succeed
               (Build.fail_with "pip failed") Build.succeed Build.succeed []
    = (Build.SystemExit 1, out) ∧
    last out = Some (LF +:+ "❌ Build failed at: Installing Dependencies") ∧
    (LF +:+ "📋 Building Executable...") ∉ out.
Proof.
  eexists. split; [|split].
  - eapply (build_stops_at_first_failure Build.transcript_print id
              Build.succeed (Build.fail_with "pip failed") Build.succeed Build.succeed
              [("Installing PyInstaller", Build.succeed)]
              [("Building Executable", Build.succeed);
               ("Testing Executable", Build.succeed)]
              "Installing Dependencies" (Build.fail_with "pip failed") []);
      reflexivity.
  - reflexivity.
  - vm_compute. intros Hin.
    repeat (apply elem_of_cons in Hin as [Heq | Hin]; [discriminate Heq|]).
    by apply elem_of_nil in Hin.
Defined.
